(** * WeatherFlow UDP driver: packet flattening and sensor-map projection

    A shallow embedding of [bin/user/weatherflowudp.py]: the module-level
    table [fields], [parseUDPPacket], [sendMyLoopPacket] and one iteration
    of [genLoopPackets], over a small model of the Python values that
    [json.loads] produces. *)

From Stdlib Require Import String Ascii List ZArith Bool Arith Lia.
From Stdlib Require Import Floats.SpecFloat.
Import ListNotations.
Local Open Scope list_scope.
Local Open Scope string_scope.

(** ** The Python side: values, dicts, exceptions *)

Module Py.

(** What [json.loads] returns: [None], [bool], [int], [float] (a binary64,
    kept as its IEEE 754 description), [str] (one [ascii] per character),
    [list] and [dict] with [str] keys. *)
#[warnings="-register-all"] Inductive value : Type :=
| VNone
| VBool (b : bool)
| VInt (z : Z)
| VFloat (f : spec_float)
| VStr (s : string)
| VList (l : list value)
| VDict (d : list (string * value)).

(** A [dict] with [str] keys, in insertion order. *)
Definition dict (V : Type) : Type := list (string * V).

(** [k in d] *)
Fixpoint dict_in {V} (k : string) (d : dict V) : bool :=
  match d with
  | [] => false
  | (k', _) :: d' => if String.eqb k k' then true else dict_in k d'
  end.

(** [d.get(k)] *)
Fixpoint dict_get {V} (k : string) (d : dict V) : option V :=
  match d with
  | [] => None
  | (k', v) :: d' => if String.eqb k k' then Some v else dict_get k d'
  end.

(** [d[k] = v]: an existing key keeps its place, a new one goes last. *)
Fixpoint dict_set {V} (k : string) (v : V) (d : dict V) : dict V :=
  match d with
  | [] => [(k, v)]
  | (k', v') :: d' =>
      if String.eqb k k' then (k', v) :: d' else (k', v') :: dict_set k v d'
  end.

(** [list(d)], the keys in iteration order. *)
Definition dict_keys {V} (d : dict V) : list string := map fst d.

(** The representation invariant of a [dict]: no key occurs twice. *)
Definition dict_wf {V} (d : dict V) : Prop := NoDup (dict_keys d).

(** [s.replace(old, new)] for one-character [old] and [new]. *)
Fixpoint str_replace (old new : ascii) (s : string) : string :=
  match s with
  | EmptyString => EmptyString
  | String c s' =>
      String (if Ascii.eqb c old then new else c) (str_replace old new s')
  end.

(** The characters of a [str], each as a one-character [str]. *)
Fixpoint str_chars (s : string) : list value :=
  match s with
  | EmptyString => []
  | String c s' => VStr (String c EmptyString) :: str_chars s'
  end.

(** The exceptions this code can raise. *)
Inductive exn : Type := KeyError | IndexError | TypeError | AttributeError.

(** A string or a number. *)
Definition scalar (v : value) : bool :=
  match v with
  | VInt _ | VFloat _ | VStr _ => true
  | _ => false
  end.

End Py.
Export Py.

(** ** Logging and the monad of the driver *)

Inductive level : Type := INFO | ERROR.

(** The two messages the pipeline logs, with the value formatted into them. *)
Inductive message : Type :=
| Corrupt_UDP_packet (pkt : dict value)
| Unknown_packet_type (ty : string).

Definition logrec : Type := level * message.

(** A computation raises or returns, and appends to the log. *)
Definition M (A : Type) : Type := (exn + A) * list logrec.

Definition ret {A} (a : A) : M A := (inr a, []).

Definition raise {A} (e : exn) : M A := (inl e, []).

Definition bind {A B} (m : M A) (f : A -> M B) : M B :=
  match m with
  | (inl e, l) => (inl e, l)
  | (inr a, l) => let (r, l') := f a in (r, (l ++ l')%list)
  end.

Notation "x <- m ;; k" := (bind m (fun x => k))
  (at level 61, m at next level, right associativity).
Notation "m ;;; k" := (bind m (fun _ => k))
  (at level 61, right associativity).

Definition loginf (msg : message) : M unit := (inr tt, [(INFO, msg)]).

Definition logerr (msg : message) : M unit := (inr tt, [(ERROR, msg)]).

(** [for x in xs: body], threading the variables the body assigns. *)
Fixpoint for_each {A S} (xs : list A) (body : A -> S -> M S) (s : S) : M S :=
  match xs with
  | [] => ret s
  | x :: xs' => s' <- body x s ;; for_each xs' body s'
  end.

(** [d[k]] *)
Definition getitem {V} (k : string) (d : dict V) : M V :=
  match dict_get k d with
  | Some v => ret v
  | None => raise KeyError
  end.

(** [v[0]] *)
Definition subscript0 (v : value) : M value :=
  match v with
  | VList [] => raise IndexError
  | VList (x :: _) => ret x
  | VStr EmptyString => raise IndexError
  | VStr (String c _) => ret (VStr (String c EmptyString))
  | VDict _ => raise KeyError
  | VNone | VBool _ | VInt _ | VFloat _ => raise TypeError
  end.

(** [iter(v)], as [zip] calls it on its arguments. *)
Definition iter (v : value) : M (list value) :=
  match v with
  | VList l => ret l
  | VStr s => ret (str_chars s)
  | VDict d => ret (map VStr (dict_keys d))
  | VNone | VBool _ | VInt _ | VFloat _ => raise TypeError
  end.

(** The receiver of a [str] method or the right operand of [str + _]:
    anything but a [str] raises [e]. *)
Definition expect_str (e : exn) (v : value) : M string :=
  match v with
  | VStr s => ret s
  | _ => raise e
  end.

(** [x in (a, b, ...)] on strings. *)
Definition in_tuple (x : string) (t : list string) : bool :=
  existsb (String.eqb x) t.

(** ** The driver *)

(** Observation record fields... *)
Definition fields : dict (list string) :=
  [ ("obs_air", ["time_epoch"; "station_pressure"; "air_temperature";
                 "relative_humidity"; "lightning_strike_count";
                 "lightning_strike_avg_distance"; "battery";
                 "report_interval"]);
    ("obs_sky", ["time_epoch"; "illuminance"; "uv"; "rain_accumulated";
                 "wind_lull"; "wind_avg"; "wind_gust"; "wind_direction";
                 "battery"; "report_interval"; "solar_radiation";
                 "local_day_rain_accumulation"; "precipitation_type";
                 "wind_sample_interval"]);
    ("rapid_wind", ["time_epoch"; "wind_speed"; "wind_direction"]);
    ("evt_precip", ["time_epoch"]);
    ("evt_strike", ["time_epoch"; "distance"; "energy"]);
    ("obs_st", ["time_epoch"; "wind_lull"; "wind_avg"; "wind_gust";
                "wind_direction"; "wind_sample_interval"; "station_pressure";
                "air_temperature"; "relative_humidity"; "illuminance"; "uv";
                "solar_radiation"; "rain_accumulated"; "precipitation_type";
                "lightning_strike_avg_distance"; "lightning_strike_count";
                "battery"; "report_interval"]) ].

(** [for key in pkt: packet[key + "." + pkt_label] = pkt[key]] *)
Definition copy_raw (pkt : dict value) (pkt_label : string)
    (packet : dict value) : M (dict value) :=
  for_each (dict_keys pkt)
    (fun key packet =>
       v <- getitem key pkt ;;
       ret (dict_set (key ++ "." ++ pkt_label) v packet))
    packet.

(** [for key, value in zip(names, values):
       packet[key + "." + pkt_label] = value] *)
Definition store_zip (names : list string) (values : list value)
    (pkt_label : string) (packet : dict value) : M (dict value) :=
  for_each (combine names values)
    (fun kv packet =>
       ret (dict_set (fst kv ++ "." ++ pkt_label) (snd kv) packet))
    packet.

(** [parseUDPPacket(pkt)]; [now] is what [int(time.time())] returns during
    the call. *)
Definition parseUDPPacket (now : Z) (pkt : dict value) : M (dict value) :=
  let packet : dict value := [] in
  if dict_in "serial_number" pkt then
    if dict_in "type" pkt then
      sn <- getitem "serial_number" pkt ;;
      sn <- expect_str AttributeError sn ;;
      let serial_number := str_replace "-" "_" sn in
      ty <- getitem "type" pkt ;;
      ty <- expect_str TypeError ty ;;
      let pkt_label := serial_number ++ "." ++ ty in
      packet <- copy_raw pkt pkt_label packet ;;
      if in_tuple ty ["obs_air"; "obs_sky"; "obs_st"] then
        obs <- getitem "obs" pkt ;;
        obs0 <- subscript0 obs ;;
        t <- subscript0 obs0 ;;
        let packet := dict_set "time_epoch" t packet in
        names <- getitem ty fields ;;
        obs <- getitem "obs" pkt ;;
        obs0 <- subscript0 obs ;;
        values <- iter obs0 ;;
        store_zip names values pkt_label packet
      else if String.eqb ty "rapid_wind" then
        ob <- getitem "ob" pkt ;;
        t <- subscript0 ob ;;
        let packet := dict_set "time_epoch" t packet in
        names <- getitem "rapid_wind" fields ;;
        ob <- getitem "ob" pkt ;;
        values <- iter ob ;;
        store_zip names values pkt_label packet
      else if in_tuple ty ["evt_strike"; "evt_precip"] then
        evt <- getitem "evt" pkt ;;
        t <- subscript0 evt ;;
        let packet := dict_set "time_epoch" t packet in
        names <- getitem ty fields ;;
        evt <- getitem "evt" pkt ;;
        values <- iter evt ;;
        store_zip names values pkt_label packet
      else if String.eqb ty "device_status" then
        t <- getitem "timestamp" pkt ;;
        ret (dict_set "time_epoch" t packet)
      else if String.eqb ty "hub_status" then
        t <- getitem "timestamp" pkt ;;
        ret (dict_set "time_epoch" t packet)
      else if String.eqb (substring 0 2 ty) "X_" then
        ret (dict_set "time_epoch" (VInt now) packet)
      else
        logerr (Unknown_packet_type ty) ;;;
        ret packet
    else
      loginf (Corrupt_UDP_packet pkt) ;;;
      ret packet
  else
    loginf (Corrupt_UDP_packet pkt) ;;;
    ret packet.

Section Driver.

(** [weewx.METRICWX], the unit-system tag of the host package; the driver
    only stores it. *)
Variable METRICWX : value.

(** [sendMyLoopPacket(pkt, sensor_map)] *)
Definition sendMyLoopPacket (pkt : dict value) (sensor_map : dict string)
    : M (dict value) :=
  packet <- (if dict_in "time_epoch" pkt then
               t <- getitem "time_epoch" pkt ;;
               ret [("dateTime", t); ("usUnits", METRICWX)]
             else ret []) ;;
  for_each sensor_map
    (fun item packet =>
       let pkt_weewx := fst item in
       let pkt_label := snd item in
       if dict_in (str_replace "-" "_" pkt_label) pkt then
         v <- getitem (str_replace "-" "_" pkt_label) pkt ;;
         ret (dict_set pkt_weewx v packet)
       else ret packet)
    packet.

(** One turn of the loop of [genLoopPackets]: the record it yields for
    [udp_packet], if it yields one. *)
Definition genLoopPackets_step (sensor_map : dict string) (now : Z)
    (udp_packet : dict value) : M (option (dict value)) :=
  m2 <- parseUDPPacket now udp_packet ;;
  m3 <- sendMyLoopPacket m2 sensor_map ;;
  ret (if (2 <? length m3)%nat then Some m3 else None).

(** Flattening followed by projection. *)
Definition flatten_project (sensor_map : dict string) (now : Z)
    (pkt : dict value) : M (dict value) :=
  m2 <- parseUDPPacket now pkt ;;
  sendMyLoopPacket m2 sensor_map.

End Driver.

(** ** Notions the properties are stated with *)

(** The hyphen-to-underscore normalization of hardware ids and aliases. *)
Definition normalize (s : string) : string := str_replace "-" "_" s.

(** The label suffix of a packet from hardware id [sn] with type [ty]. *)
Definition label_of (sn ty : string) : string := normalize sn ++ "." ++ ty.

(** The key under which field [f] of a packet labelled [label] is kept. *)
Definition composite_key (f label : string) : string := f ++ "." ++ label.

(** Whether character [c] occurs in [s]. *)
Fixpoint has_char (c : ascii) (s : string) : bool :=
  match s with
  | EmptyString => false
  | String x s' => if Ascii.eqb x c then true else has_char c s'
  end.

(** One turn of the raw-field copy loop, with [pkt[key]] looked up. *)
Definition raw_step (pkt : dict value) (pkt_label : string)
    (packet : dict value) (key : string) : dict value :=
  match dict_get key pkt with
  | Some v => dict_set (key ++ "." ++ pkt_label) v packet
  | None => packet
  end.

(** One turn of the positional zip loop. *)
Definition zip_step (pkt_label : string) (packet : dict value)
    (kv : string * value) : dict value :=
  dict_set (fst kv ++ "." ++ pkt_label) (snd kv) packet.

(** One turn of the alias loop, with the membership test and the lookup
    as one. *)
Definition alias_step (pkt : dict value) (packet : dict value)
    (item : string * string) : dict value :=
  match dict_get (normalize (snd item)) pkt with
  | Some v => dict_set (fst item) v packet
  | None => packet
  end.

(** What the Output Record starts from. *)
Definition seed (METRICWX : value) (pkt : dict value) : dict value :=
  match dict_get "time_epoch" pkt with
  | Some t => [("dateTime", t); ("usUnits", METRICWX)]
  | None => []
  end.

(** [d1 == d2] on dicts: the same keys with the same values, in any
    order. *)
Definition dict_eq {V} (d1 d2 : dict V) : Prop :=
  forall k, dict_get k d1 = dict_get k d2.

(** The chain of [parseUDPPacket] after the raw-field copy, for a packet of
    type [ty] with label [pkt_label] and the record [packet] built so far. *)
Definition dispatch (now : Z) (pkt : dict value) (ty pkt_label : string)
    (packet : dict value) : M (dict value) :=
  if in_tuple ty ["obs_air"; "obs_sky"; "obs_st"] then
    obs <- getitem "obs" pkt ;;
    obs0 <- subscript0 obs ;;
    t <- subscript0 obs0 ;;
    let packet := dict_set "time_epoch" t packet in
    names <- getitem ty fields ;;
    obs <- getitem "obs" pkt ;;
    obs0 <- subscript0 obs ;;
    values <- iter obs0 ;;
    store_zip names values pkt_label packet
  else if String.eqb ty "rapid_wind" then
    ob <- getitem "ob" pkt ;;
    t <- subscript0 ob ;;
    let packet := dict_set "time_epoch" t packet in
    names <- getitem "rapid_wind" fields ;;
    ob <- getitem "ob" pkt ;;
    values <- iter ob ;;
    store_zip names values pkt_label packet
  else if in_tuple ty ["evt_strike"; "evt_precip"] then
    evt <- getitem "evt" pkt ;;
    t <- subscript0 evt ;;
    let packet := dict_set "time_epoch" t packet in
    names <- getitem ty fields ;;
    evt <- getitem "evt" pkt ;;
    values <- iter evt ;;
    store_zip names values pkt_label packet
  else if String.eqb ty "device_status" then
    t <- getitem "timestamp" pkt ;;
    ret (dict_set "time_epoch" t packet)
  else if String.eqb ty "hub_status" then
    t <- getitem "timestamp" pkt ;;
    ret (dict_set "time_epoch" t packet)
  else if String.eqb (substring 0 2 ty) "X_" then
    ret (dict_set "time_epoch" (VInt now) packet)
  else
    logerr (Unknown_packet_type ty) ;;;
    ret packet.

(** [v] is [a[0]] or one of the values that iterating [a] gives. *)
Definition elem (v a : value) : Prop :=
  subscript0 a = ret v \/ exists xs, iter a = ret xs /\ In v xs.

(** An array of scalars, and an array of such arrays. *)
Definition flat_array (v : value) : bool :=
  match v with
  | VList l => forallb scalar l
  | _ => false
  end.

Definition nested_array (v : value) : bool :=
  match v with
  | VList l => forallb flat_array l
  | _ => false
  end.

(** The Decoded Message of the data model: every top-level value is a
    scalar or an array of scalars; [obs], as the hub sends it, is an array
    of arrays of scalars. *)
Definition data_model (pkt : dict value) : Prop :=
  forall k v, dict_get k pkt = Some v ->
    scalar v = true \/ flat_array v = true \/
    (k = "obs" /\ nested_array v = true).

(** A roll-up message with [serial_number], [type] and a non-empty [obs]
    array. *)
Definition rollup_well_formed (pkt : dict value) : Prop :=
  exists sn ty o os,
    dict_get "serial_number" pkt = Some (VStr sn) /\
    dict_get "type" pkt = Some (VStr ty) /\
    in_tuple ty ["obs_air"; "obs_sky"; "obs_st"] = true /\
    dict_get "obs" pkt = Some (VList (o :: os)).

(** No string occurs twice in [l]. *)
Fixpoint nodupb (l : list string) : bool :=
  match l with
  | [] => true
  | x :: l' => negb (existsb (String.eqb x) l') && nodupb l'
  end.

(** ** Messages used as examples *)

(** [{"serial_number":"AR-00004424","type":"obs_air",
      "obs":[[1600000000,1015.1,22.3,54,0,0,3.5,1]]}]; the three floats are
    the binary64 values [json.loads] gives, written [m * 2^e]:
    1015.1 = 8928914026843341 * 2^-43, 22.3 = 6276891980647629 * 2^-48,
    3.5 = 7881299347898368 * 2^-51. *)
Definition obs_air_example : dict value :=
  [ ("serial_number", VStr "AR-00004424");
    ("type", VStr "obs_air");
    ("obs", VList [VList [VInt 1600000000;
                          VFloat (S754_finite false 8928914026843341 (-43));
                          VFloat (S754_finite false 6276891980647629 (-48));
                          VInt 54; VInt 0; VInt 0;
                          VFloat (S754_finite false 7881299347898368 (-51));
                          VInt 1]]) ].

(** [{"serial_number": sn, "type": ty}] *)
Definition bare_message (sn ty : string) : dict value :=
  [ ("serial_number", VStr sn); ("type", VStr ty) ].

(** [{"serial_number": sn, "type": ty, key: v}] *)
Definition message_with (sn ty key : string) (v : value) : dict value :=
  [ ("serial_number", VStr sn); ("type", VStr ty); (key, v) ].

(** The names of a field table other than the timestamp's. *)
Definition non_timestamp (names : list string) : list string :=
  filter (fun f => negb (String.eqb f "time_epoch")) names.

(** ** Notions for the further properties *)

(** A computation that logs nothing. *)
Definition silent {A} (m : M A) : Prop := snd m = [].

(** Whether a computation returned rather than raised. *)
Definition returned {A} (m : M A) : bool :=
  match fst m with
  | inr _ => true
  | inl _ => false
  end.

(** [v[0]] is defined: [v] is a non-empty list or string. *)
Definition indexable (v : value) : bool :=
  match v with
  | VList (_ :: _) => true
  | VStr (String _ _) => true
  | _ => false
  end.

(** [v[0][0]] is defined. *)
Definition indexable_twice (v : value) : bool :=
  match v with
  | VList (x :: _) => indexable x
  | VStr (String _ _) => true
  | _ => false
  end.

(** The messages that [parseUDPPacket] flattens without raising: those
    lacking [serial_number] or [type], and those where both are strings
    and the type's payload can be read. *)
Definition flattens (pkt : dict value) : bool :=
  match dict_get "serial_number" pkt, dict_get "type" pkt with
  | Some (VStr _), Some (VStr ty) =>
      if in_tuple ty ["obs_air"; "obs_sky"; "obs_st"] then
        match dict_get "obs" pkt with
        | Some obs => indexable_twice obs
        | None => false
        end
      else if String.eqb ty "rapid_wind" then
        match dict_get "ob" pkt with
        | Some ob => indexable ob
        | None => false
        end
      else if in_tuple ty ["evt_strike"; "evt_precip"] then
        match dict_get "evt" pkt with
        | Some evt => indexable evt
        | None => false
        end
      else if String.eqb ty "device_status" || String.eqb ty "hub_status" then
        dict_in "timestamp" pkt
      else true
  | Some _, Some _ => false
  | _, _ => true
  end.

(** The positional array that the dispatch zips for a message of type
    [ty]: [pkt['obs'][0]] for a roll-up, [pkt['ob']] for [rapid_wind],
    [pkt['evt']] for an event; no other type has one. *)
Definition payload (pkt : dict value) (ty : string) : option value :=
  if in_tuple ty ["obs_air"; "obs_sky"; "obs_st"] then
    match dict_get "obs" pkt with
    | Some (VList (obs0 :: _)) => Some obs0
    | Some (VStr (String c _)) => Some (VStr (String c EmptyString))
    | _ => None
    end
  else if String.eqb ty "rapid_wind" then dict_get "ob" pkt
  else if in_tuple ty ["evt_strike"; "evt_precip"] then dict_get "evt" pkt
  else None.

(** The aliases whose normalized dotted key is a key of the record. *)
Definition matching (pkt : dict value) (sensor_map : dict string)
    : dict string :=
  filter (fun item => dict_in (normalize (snd item)) pkt) sensor_map.

(** The entries of a record whose key has no hyphen. *)
Definition hyphen_free (pkt : dict value) : dict value :=
  filter (fun kv => negb (has_char "-" (fst kv))) pkt.

(** The loop body of [genLoopPackets] run over the packets that the
    iterator [gen_udp_packets] hands it, each with the clock's reading
    while it is flattened: the records yielded, the exception of the loop
    body that ended the run if one did, and the lines the loop body logged.
    What the iterator itself logs or raises between two packets is not
    part of it. *)
Fixpoint genLoopPackets (METRICWX : value) (sensor_map : dict string)
    (udp_packets : list (Z * dict value))
    : list (dict value) * option exn * list logrec :=
  match udp_packets with
  | [] => ([], None, [])
  | (now, udp_packet) :: rest =>
      match genLoopPackets_step METRICWX sensor_map now udp_packet with
      | (inl e, l) => ([], Some e, l)
      | (inr m3, l) =>
          let '(yielded, ended, l') :=
            genLoopPackets METRICWX sensor_map rest in
          (match m3 with Some m => m :: yielded | None => yielded end,
           ended, (l ++ l')%list)
      end
  end.

(** ** Building the driver *)

Definition DRIVER_VERSION : string := "1.11".

Definition DRIVER_NAME : string := "WeatherFlowUDP".

(** What [__init__] logs, all at INFO. *)
Inductive init_message : Type :=
| Driver_version_is (version : string)
| Sensor_map_is (sensor_map : value)
| Sensor_names_per_packet_type
| Packet_fields (pkt_type : string) (names : list string).

(** The attributes [__init__] sets. *)
Record driver : Type := Driver {
  _log_raw_packets : bool;
  _udp_address : value;
  _udp_port : Z;
  _udp_timeout : Z;
  _share_socket : bool;
  _sensor_map : value
}.

(** [d.get(k, default)] *)
Definition dict_get_default {V} (k : string) (default : V) (d : dict V) : V :=
  match dict_get k d with
  | Some v => v
  | None => default
  end.

Section Init.

(** [weeutil.weeutil.tobool] of the host package and the builtin [int]:
    each returns or raises. *)
Variable tobool : value -> exn + bool.
Variable int : value -> exn + Z.

(** [WeatherFlowUDPDriver.__init__(self, **stn_dict)]: the driver it
    builds, or the exception of a conversion, and the lines logged up to
    there. *)
Definition WeatherFlowUDPDriver_init (stn_dict : dict value)
    : (exn + driver) * list (level * init_message) :=
  let log := [(INFO, Driver_version_is DRIVER_VERSION)] in
  match tobool (dict_get_default "log_raw_packets" (VBool false) stn_dict) with
  | inl e => (inl e, log)
  | inr log_raw_packets =>
  let udp_address :=
    dict_get_default "udp_address" (VStr "<broadcast>") stn_dict in
  match int (dict_get_default "udp_port" (VInt 50222) stn_dict) with
  | inl e => (inl e, log)
  | inr udp_port =>
  match int (dict_get_default "udp_timeout" (VInt 90) stn_dict) with
  | inl e => (inl e, log)
  | inr udp_timeout =>
  match tobool (dict_get_default "share_socket" (VBool false) stn_dict) with
  | inl e => (inl e, log)
  | inr share_socket =>
  let sensor_map := dict_get_default "sensor_map" (VDict []) stn_dict in
  (inr (Driver log_raw_packets udp_address udp_port udp_timeout share_socket
          sensor_map),
   (log ++ [(INFO, Sensor_map_is sensor_map);
            (INFO, Sensor_names_per_packet_type)]
        ++ map (fun pkt_type =>
                  (INFO, Packet_fields pkt_type
                           (dict_get_default pkt_type [] fields)))
             (dict_keys fields))%list)
  end end end end.

(** [loader(config_dict, engine)] *)
Definition loader (config_dict : dict (dict value))
    : (exn + driver) * list (level * init_message) :=
  match dict_get DRIVER_NAME config_dict with
  | Some stn_dict => WeatherFlowUDPDriver_init stn_dict
  | None => (inl KeyError, [])
  end.

End Init.

(** The [config_dict] that the command-line entry point builds from its
    options. *)
Definition main_config_dict (address port timeout share_socket : value)
    : dict (dict value) :=
  [ ("WeatherFlowUDP",
     [ ("address", address); ("port", port); ("timeout", timeout);
       ("share_socket", share_socket) ]) ].

(** Two runs with the same outcome: the same exception, or records that
    are equal as dicts. *)
Definition same_outcome (m m' : M (dict value)) : Prop :=
  match fst m, fst m' with
  | inr r, inr r' => dict_eq r r'
  | inl e, inl e' => e = e'
  | _, _ => False
  end.

(** * Properties *)

(** ** Strings *)

Lemma length_append (a b : string) :
  String.length (a ++ b) = String.length a + String.length b.
Proof.
  induction a as [|c a IH]; simpl; [reflexivity | now rewrite IH].
Qed.

Lemma append_assoc (a b c : string) : (a ++ b) ++ c = a ++ b ++ c.
Proof.
  induction a as [|x a IH]; simpl; [reflexivity | now rewrite IH].
Qed.

(** A common suffix can be cancelled. *)
Lemma append_inj_l (s a b : string) : a ++ s = b ++ s -> a = b.
Proof.
  revert b; induction a as [|x a IH]; intros [|y b] E; simpl in E.
  - reflexivity.
  - apply (f_equal String.length) in E; simpl in E.
    rewrite length_append in E; lia.
  - apply (f_equal String.length) in E; simpl in E.
    rewrite length_append in E; lia.
  - injection E as -> E. f_equal. now apply IH.
Qed.

(** ** Dicts *)

Section DictFacts.

Context {V : Type}.
Implicit Types (d : dict V) (k : string) (v : V).

Lemma dict_in_get k d :
  dict_in k d = match dict_get k d with Some _ => true | None => false end.
Proof.
  induction d as [|[k' v'] d IH]; simpl; [reflexivity|].
  destruct (String.eqb k k'); [reflexivity | exact IH].
Qed.

Lemma dict_get_set k k' v d :
  dict_get k (dict_set k' v d) =
  if String.eqb k k' then Some v else dict_get k d.
Proof.
  induction d as [|[k0 v0] d IH]; simpl.
  - reflexivity.
  - destruct (String.eqb_spec k' k0) as [->|N]; simpl.
    + destruct (String.eqb k k0); reflexivity.
    + rewrite IH. destruct (String.eqb_spec k k0) as [->|N'].
      * destruct (String.eqb_spec k0 k'); [congruence | reflexivity].
      * reflexivity.
Qed.

Lemma dict_get_set_same k v d : dict_get k (dict_set k v d) = Some v.
Proof. now rewrite dict_get_set, String.eqb_refl. Qed.

Lemma dict_get_set_other k k' v d :
  k <> k' -> dict_get k (dict_set k' v d) = dict_get k d.
Proof.
  intros N. rewrite dict_get_set.
  now destruct (String.eqb_spec k k').
Qed.

(** Assigning twice to a key leaves the second value, in the same place. *)
Lemma dict_set_set k v v' d :
  dict_set k v' (dict_set k v d) = dict_set k v' d.
Proof.
  induction d as [|[k0 v0] d IH]; simpl.
  - now rewrite String.eqb_refl.
  - destruct (String.eqb_spec k k0) as [->|N]; simpl.
    + now rewrite String.eqb_refl.
    + destruct (String.eqb_spec k k0); [congruence | now rewrite IH].
Qed.

Lemma dict_get_In k v d : dict_get k d = Some v -> In (k, v) d.
Proof.
  induction d as [|[k' v'] d IH]; simpl; [discriminate|].
  destruct (String.eqb_spec k k') as [->|N].
  - intros [= ->]. now left.
  - intros H. right. now apply IH.
Qed.

Lemma dict_get_None k d : dict_get k d = None <-> ~ In k (dict_keys d).
Proof.
  induction d as [|[k' v'] d IH]; simpl.
  - tauto.
  - destruct (String.eqb_spec k k') as [->|N].
    + split; [discriminate | intros H; exfalso; apply H; now left].
    + rewrite IH. split.
      * intros H [E|I]; [congruence | tauto].
      * tauto.
Qed.

Lemma dict_get_keys k d :
  In k (dict_keys d) -> exists v, dict_get k d = Some v.
Proof.
  intros I. destruct (dict_get k d) as [v|] eqn:E; [now exists v|].
  now apply dict_get_None in E.
Qed.

(** In a well-formed dict an entry is what its key looks up. *)
Lemma dict_wf_In_get k v d : dict_wf d -> In (k, v) d -> dict_get k d = Some v.
Proof.
  unfold dict_wf. induction d as [|[k' v'] d IH]; simpl; [tauto|].
  intros W [E|I].
  - injection E as -> ->. now rewrite String.eqb_refl.
  - inversion W as [|? ? NI W']; subst.
    destruct (String.eqb_spec k k') as [->|N].
    + exfalso. apply NI. change (In (fst (k', v)) (map fst d)).
      now apply in_map.
    + now apply IH.
Qed.

(** The entries of a dict after an assignment. *)
Lemma dict_set_In k v k' v' d :
  In (k', v') (dict_set k v d) -> (k' = k /\ v' = v) \/ In (k', v') d.
Proof.
  induction d as [|[k0 v0] d IH]; simpl.
  - intros [[= <- <-]|[]]. now left.
  - destruct (String.eqb_spec k k0) as [->|N]; simpl.
    + intros [[= <- <-]|I]; [now left | right; now right].
    + intros [E|I]; [right; now left|].
      destruct (IH I) as [L|R]; [now left | right; now right].
Qed.

End DictFacts.

(** ** The monad *)

Lemma bind_ret_l {A B} (a : A) (f : A -> M B) : bind (ret a) f = f a.
Proof. unfold bind, ret. now destruct (f a). Qed.

Lemma bind_raise {A B} (e : exn) (f : A -> M B) : bind (raise e) f = raise e.
Proof. reflexivity. Qed.

Lemma bind_ext {A B} (m : M A) (f g : A -> M B) :
  (forall a, f a = g a) -> bind m f = bind m g.
Proof. intros E. destruct m as [[e|a] l]; simpl; [reflexivity | now rewrite E]. Qed.

Lemma bind_inr {A B} (m : M A) (f : A -> M B) (b : B) (l : list logrec) :
  bind m f = (inr b, l) ->
  exists a l1 l2, m = (inr a, l1) /\ f a = (inr b, l2) /\ l = (l1 ++ l2)%list.
Proof.
  destruct m as [[e|a] l1]; simpl; [discriminate|].
  destruct (f a) as [r l2] eqn:E. intros [= -> <-].
  now exists a, l1, l2.
Qed.

(** Taking apart [x <- m ;; k] that returned. *)
Ltac bind_step H x G :=
  let l1 := fresh "l" in
  let l2 := fresh "l" in
  apply bind_inr in H as (x & l1 & l2 & G & H & ->).

Lemma ret_inr {A} (a b : A) (l : list logrec) :
  ret a = (inr b, l) -> a = b /\ l = [].
Proof. unfold ret. now intros [= -> <-]. Qed.

Lemma getitem_inr {V} (k : string) (d : dict V) (v : V) (l : list logrec) :
  getitem k d = (inr v, l) -> dict_get k d = Some v /\ l = [].
Proof.
  unfold getitem. destruct (dict_get k d); [|discriminate].
  intros H. apply ret_inr in H as [-> ->]. now split.
Qed.

Lemma getitem_Some {V} (k : string) (d : dict V) (v : V) :
  dict_get k d = Some v -> getitem k d = ret v.
Proof. unfold getitem. now intros ->. Qed.

Lemma getitem_None {V} (k : string) (d : dict V) :
  dict_get k d = None -> getitem k d = raise KeyError.
Proof. unfold getitem. now intros ->. Qed.

(** [v[0]] returns only on a non-empty list or string. *)
Lemma subscript0_inr (v x : value) (l : list logrec) :
  subscript0 v = (inr x, l) ->
  l = [] /\
  ((exists r, v = VList (x :: r)) \/
   (exists c s, v = VStr (String c s) /\ x = VStr (String c EmptyString))).
Proof.
  destruct v as [| | | |[|c s]|[|y r]|]; simpl; try discriminate;
    intros H; apply ret_inr in H as [<- ->]; split; trivial.
  - right. now exists c, s.
  - left. now exists r.
Qed.

Lemma iter_inr (v : value) (xs : list value) (l : list logrec) :
  iter v = (inr xs, l) ->
  l = [] /\
  (v = VList xs \/ (exists s, v = VStr s /\ xs = str_chars s) \/
   (exists d, v = VDict d /\ xs = map VStr (dict_keys d))).
Proof.
  destruct v; simpl; try discriminate;
    intros H; apply ret_inr in H as [<- ->]; split; trivial.
  - right; left. now eexists.
  - now left.
  - right; right. now eexists.
Qed.

(** A loop whose body only assigns is a left fold. *)
Lemma for_each_pure {A S} (f : S -> A -> S) (xs : list A) (s : S) :
  for_each xs (fun x s => ret (f s x)) s = ret (fold_left f xs s).
Proof.
  revert s; induction xs as [|x xs IH]; intros s; cbn [for_each fold_left];
    [reflexivity|].
  rewrite bind_ret_l. apply IH.
Qed.

(** ** The three loops *)

(** The raw-field copy never raises: it reads [pkt] at keys of [pkt]. *)
Lemma copy_raw_fold (pkt : dict value) (label : string) (packet : dict value) :
  copy_raw pkt label packet =
  ret (fold_left (raw_step pkt label) (dict_keys pkt) packet).
Proof.
  unfold copy_raw.
  assert (G : forall ks p, (forall k, In k ks -> In k (dict_keys pkt)) ->
            for_each ks
              (fun key packet =>
                 v <- getitem key pkt ;;
                 ret (dict_set (key ++ "." ++ label) v packet)) p =
            ret (fold_left (raw_step pkt label) ks p)).
  { induction ks as [|k ks IH]; intros p Hks; cbn [for_each fold_left];
      [reflexivity|].
    destruct (dict_get_keys k pkt) as [v Hv]; [apply Hks; now left|].
    rewrite (getitem_Some _ _ _ Hv), !bind_ret_l.
    unfold raw_step at 2. rewrite Hv.
    apply IH. intros k' I. apply Hks. now right. }
  apply G. auto.
Qed.

Lemma store_zip_fold (names : list string) (values : list value)
    (label : string) (packet : dict value) :
  store_zip names values label packet =
  ret (fold_left (zip_step label) (combine names values) packet).
Proof. unfold store_zip. apply (for_each_pure (zip_step label)). Qed.

(** ** Composite keys *)

Lemma composite_inj (label f g : string) :
  f ++ "." ++ label = g ++ "." ++ label -> f = g.
Proof. apply append_inj_l. Qed.

Lemma has_char_append (c : ascii) (a b : string) :
  has_char c (a ++ b) = has_char c a || has_char c b.
Proof.
  induction a as [|x a IH]; simpl; [reflexivity|].
  destruct (Ascii.eqb x c); [reflexivity | exact IH].
Qed.

Lemma composite_has_dot (f label : string) :
  has_char "." (f ++ "." ++ label) = true.
Proof. rewrite has_char_append. simpl. apply orb_true_r. Qed.

(** The bare timestamp key is no composite key: it has no dot. *)
Lemma time_epoch_not_composite (f label : string) :
  "time_epoch" <> f ++ "." ++ label.
Proof.
  intros E. apply (f_equal (has_char ".")) in E.
  rewrite composite_has_dot in E. discriminate.
Qed.

(** ** What the loops leave in the record *)

Section LoopFacts.

Variables (pkt : dict value) (label : string).

Lemma raw_fold_entries (ks : list string) (p : dict value) k v :
  In (k, v) (fold_left (raw_step pkt label) ks p) ->
  In (k, v) p \/
  exists k0, In k0 ks /\ k = k0 ++ "." ++ label /\ dict_get k0 pkt = Some v.
Proof.
  revert p; induction ks as [|k0 ks IH]; intros p; simpl; [now left|].
  intros H. destruct (IH _ H) as [I|(k1 & I & E & G)].
  - unfold raw_step in I. destruct (dict_get k0 pkt) as [v0|] eqn:G.
    + apply dict_set_In in I as [[-> ->]|I]; [|now left].
      right. exists k0. repeat split; trivial. now left.
    + now left.
  - right. exists k1. repeat split; trivial. now right.
Qed.

Lemma raw_fold_get (ks : list string) (p : dict value) f :
  dict_get (f ++ "." ++ label) (fold_left (raw_step pkt label) ks p) =
  match (if existsb (String.eqb f) ks then dict_get f pkt else None) with
  | Some v => Some v
  | None => dict_get (f ++ "." ++ label) p
  end.
Proof.
  revert p; induction ks as [|k ks IH]; intros p; simpl; [reflexivity|].
  rewrite IH. unfold raw_step.
  destruct (String.eqb_spec f k) as [<-|N]; simpl.
  - destruct (dict_get f pkt) as [v|] eqn:G.
    + rewrite dict_get_set_same. now destruct (existsb _ ks).
    + now destruct (existsb _ ks).
  - assert (D : f ++ "." ++ label <> k ++ "." ++ label)
      by (intros E; apply N; now apply composite_inj in E).
    destruct (dict_get k pkt) as [v|]; [|reflexivity].
    now rewrite (dict_get_set_other _ _ _ _ D).
Qed.

(** After the raw-field copy into an empty record, field [f] of the label
    holds what the message holds under [f]. *)
Lemma raw_get (f : string) :
  dict_get (f ++ "." ++ label)
    (fold_left (raw_step pkt label) (dict_keys pkt) []) = dict_get f pkt.
Proof.
  rewrite raw_fold_get. simpl.
  destruct (existsb (String.eqb f) (dict_keys pkt)) eqn:E.
  - now destruct (dict_get f pkt).
  - destruct (dict_get f pkt) as [v|] eqn:G; [|reflexivity].
    exfalso. apply dict_get_In in G.
    assert (T : existsb (String.eqb f) (dict_keys pkt) = true).
    { apply existsb_exists. exists f. split; [|apply String.eqb_refl].
      change f with (fst (f, v)). now apply in_map. }
    congruence.
Qed.

Lemma zip_fold_entries (kvs : list (string * value)) (p : dict value) k v :
  In (k, v) (fold_left (zip_step label) kvs p) ->
  In (k, v) p \/ exists f, k = f ++ "." ++ label /\ In (f, v) kvs.
Proof.
  revert p; induction kvs as [|[f0 v0] kvs IH]; intros p; simpl; [now left|].
  intros H. destruct (IH _ H) as [I|(f & E & I)].
  - apply dict_set_In in I as [[-> ->]|I]; [|now left].
    right. exists f0. split; [reflexivity | now left].
  - right. exists f. split; [exact E | now right].
Qed.

(** A key the zip does not write keeps its value. *)
Lemma zip_fold_get_other (kvs : list (string * value)) (p : dict value) k :
  (forall f, In f (map fst kvs) -> k <> f ++ "." ++ label) ->
  dict_get k (fold_left (zip_step label) kvs p) = dict_get k p.
Proof.
  revert p; induction kvs as [|[f0 v0] kvs IH]; intros p N; simpl;
    [reflexivity|].
  rewrite IH by (intros f I; apply N; now right).
  apply dict_get_set_other. apply N. now left.
Qed.

Lemma zip_fold_get_notin (kvs : list (string * value)) (p : dict value) f :
  ~ In f (map fst kvs) ->
  dict_get (f ++ "." ++ label) (fold_left (zip_step label) kvs p) =
  dict_get (f ++ "." ++ label) p.
Proof.
  intros NI. apply zip_fold_get_other. intros g I E.
  apply composite_inj in E. now subst.
Qed.

(** A pair the zip writes is found under its field, when no field name
    occurs twice. *)
Lemma zip_fold_get_in (kvs : list (string * value)) (p : dict value) f v :
  NoDup (map fst kvs) -> In (f, v) kvs ->
  dict_get (f ++ "." ++ label) (fold_left (zip_step label) kvs p) = Some v.
Proof.
  revert p; induction kvs as [|[f0 v0] kvs IH]; intros p ND I; simpl;
    [destruct I|].
  inversion ND as [|? ? NI ND']; subst.
  destruct I as [[= -> ->]|I].
  - rewrite zip_fold_get_notin by exact NI.
    apply dict_get_set_same.
  - now apply IH.
Qed.

End LoopFacts.

(** The field names a zip pairs up are names of the table, each once. *)
Lemma combine_fst_NoDup {A B} (xs : list A) (ys : list B) :
  NoDup xs -> NoDup (map fst (combine xs ys)).
Proof.
  revert ys; induction xs as [|x xs IH]; intros [|y ys] ND; simpl;
    try constructor.
  - inversion ND as [|? ? NI ND']; subst.
    intros I. apply in_map_iff in I as ([x' y'] & E & I). simpl in E; subst.
    apply in_combine_l in I. contradiction.
  - inversion ND; subst. now apply IH.
Qed.

Lemma skipn_In {A} (n : nat) (xs : list A) (x : A) :
  In x (skipn n xs) -> In x xs.
Proof.
  intros I. rewrite <- (firstn_skipn n xs). apply in_or_app. now right.
Qed.

(** The names past the end of the values are not paired. *)
Lemma skipn_not_combined {A B} (xs : list A) (ys : list B) (x : A) :
  NoDup xs -> In x (skipn (length ys) xs) -> ~ In x (map fst (combine xs ys)).
Proof.
  revert ys; induction xs as [|x0 xs IH]; intros [|y ys] ND I; simpl in *;
    try tauto.
  inversion ND as [|? ? NI ND']; subst.
  intros [E|I'].
  - subst. apply NI. eapply skipn_In. exact I.
  - exact (IH ys ND' I I').
Qed.

(** Counting the names a predicate accepts, when it accepts the paired
    names and rejects the rest. *)
Lemma count_paired {A B} (P : A -> bool) (xs : list A) (ys : list B) :
  (forall x y, In (x, y) (combine xs ys) -> P x = true) ->
  (forall x, In x (skipn (length ys) xs) -> P x = false) ->
  length (filter P xs) = Nat.min (length xs) (length ys).
Proof.
  revert ys; induction xs as [|x xs IH]; intros [|y ys] HT HF; simpl in *;
    trivial.
  - rewrite (HF x (or_introl eq_refl)).
    assert (E : filter P xs = []).
    { clear IH HT. induction xs as [|x' xs IH]; simpl; [reflexivity|].
      rewrite (HF x' (or_intror (or_introl eq_refl))). apply IH.
      intros z [->|I]; apply HF; [now left | right; now right]. }
    now rewrite E.
  - rewrite (HT x y (or_introl eq_refl)). simpl. f_equal.
    apply IH; [intros x' y' I; apply (HT x' y'); now right | exact HF].
Qed.

(** ** The two functions in closed form *)

Lemma parseUDPPacket_dispatch (now : Z) (pkt : dict value) (sn ty : string) :
  dict_get "serial_number" pkt = Some (VStr sn) ->
  dict_get "type" pkt = Some (VStr ty) ->
  parseUDPPacket now pkt =
  dispatch now pkt ty (label_of sn ty)
    (fold_left (raw_step pkt (label_of sn ty)) (dict_keys pkt) []).
Proof.
  intros Hsn Hty. unfold parseUDPPacket.
  rewrite !dict_in_get, Hsn, Hty.
  rewrite (getitem_Some _ _ _ Hsn), bind_ret_l. cbn [expect_str].
  rewrite bind_ret_l, (getitem_Some _ _ _ Hty), bind_ret_l. cbn [expect_str].
  rewrite bind_ret_l, copy_raw_fold, bind_ret_l.
  reflexivity.
Qed.

Lemma parseUDPPacket_corrupt (now : Z) (pkt : dict value) :
  dict_in "serial_number" pkt = false \/ dict_in "type" pkt = false ->
  parseUDPPacket now pkt = (inr [], [(INFO, Corrupt_UDP_packet pkt)]).
Proof.
  intros H. unfold parseUDPPacket.
  destruct (dict_in "serial_number" pkt); [|reflexivity].
  destruct H as [H|H]; [discriminate|]. now rewrite H.
Qed.

Section Projection.

Variable METRICWX : value.

(** The alias loop never raises: it reads the record where it has just
    found the key. *)
Lemma sendMyLoopPacket_fold (pkt : dict value) (sensor_map : dict string) :
  sendMyLoopPacket METRICWX pkt sensor_map =
  ret (fold_left (alias_step pkt) sensor_map (seed METRICWX pkt)).
Proof.
  unfold sendMyLoopPacket, seed. rewrite dict_in_get.
  assert (G : forall sm p,
            for_each sm
              (fun item packet =>
                 let pkt_weewx := fst item in
                 let pkt_label := snd item in
                 if dict_in (str_replace "-" "_" pkt_label) pkt then
                   v <- getitem (str_replace "-" "_" pkt_label) pkt ;;
                   ret (dict_set pkt_weewx v packet)
                 else ret packet) p =
            ret (fold_left (alias_step pkt) sm p)).
  { induction sm as [|[w lbl] sm IH]; intros p; cbn [for_each fold_left];
      [reflexivity|].
    cbv zeta. cbn [fst snd]. rewrite dict_in_get. unfold alias_step at 2.
    cbn [fst snd]. unfold normalize.
    destruct (dict_get (str_replace "-" "_" lbl) pkt) as [v|] eqn:G.
    - rewrite (getitem_Some _ _ _ G), !bind_ret_l. apply IH.
    - rewrite bind_ret_l. apply IH. }
  destruct (dict_get "time_epoch" pkt) as [t|] eqn:T.
  - rewrite (getitem_Some _ _ _ T), !bind_ret_l. apply G.
  - rewrite bind_ret_l. apply G.
Qed.

(** What the output holds under a name, for an alias table that is a
    dict. *)
Lemma alias_fold_get (pkt : dict value) (sm : dict string)
    (p : dict value) (w : string) :
  dict_wf sm ->
  dict_get w (fold_left (alias_step pkt) sm p) =
  match dict_get w sm with
  | Some lbl =>
      match dict_get (normalize lbl) pkt with
      | Some v => Some v
      | None => dict_get w p
      end
  | None => dict_get w p
  end.
Proof.
  unfold dict_wf. revert p; induction sm as [|[w0 l0] sm IH]; intros p W;
    cbn [fold_left]; [reflexivity|].
  inversion W as [|? ? NI W']; subst.
  rewrite (IH _ W'). cbn [dict_get]. unfold alias_step at 1 2. cbn [fst snd].
  destruct (String.eqb_spec w w0) as [->|N].
  - apply dict_get_None in NI. rewrite NI.
    destruct (dict_get (normalize l0) pkt); [|reflexivity].
    apply dict_get_set_same.
  - destruct (dict_get (normalize l0) pkt) as [v0|]; [|reflexivity].
    rewrite (dict_get_set_other _ _ _ _ N). reflexivity.
Qed.

(** An alias table none of whose keys is in the record changes nothing. *)
Lemma alias_fold_miss (pkt : dict value) (sm : dict string) (p : dict value) :
  (forall w lbl, In (w, lbl) sm -> dict_get (normalize lbl) pkt = None) ->
  fold_left (alias_step pkt) sm p = p.
Proof.
  revert p; induction sm as [|[w lbl] sm IH]; intros p H; cbn [fold_left];
    [reflexivity|].
  unfold alias_step at 2. cbn [fst snd].
  rewrite (H w lbl (or_introl eq_refl)).
  apply IH. intros w' l' I. apply (H w' l'). now right.
Qed.

End Projection.

(** * The claims *)

(** C1 (the code departs from the claim).  The claim says that flattening
    returns a record even when a message of a positional type lacks its
    array key or holds an empty array.  The code reads [pkt['obs'][0][0]],
    [pkt['ob'][0]] and [pkt['evt'][0]] unguarded: a missing key raises
    [KeyError], an empty array raises [IndexError], and one turn of
    [genLoopPackets] lets the exception through. *)
Theorem C1_missing_array_raises (now : Z) (METRICWX : value)
    (sensor_map : dict string) :
  parseUDPPacket now (bare_message "AR-00004424" "obs_air")
    = (inl KeyError, []) /\
  parseUDPPacket now (bare_message "SK-00001234" "rapid_wind")
    = (inl KeyError, []) /\
  parseUDPPacket now (bare_message "AR-00004424" "evt_strike")
    = (inl KeyError, []) /\
  parseUDPPacket now (message_with "AR-00004424" "obs_air" "obs" (VList []))
    = (inl IndexError, []) /\
  parseUDPPacket now (message_with "SK-00001234" "rapid_wind" "ob" (VList []))
    = (inl IndexError, []) /\
  parseUDPPacket now (message_with "AR-00004424" "evt_strike" "evt" (VList []))
    = (inl IndexError, []) /\
  genLoopPackets_step METRICWX sensor_map now
    (bare_message "AR-00004424" "obs_air") = (inl KeyError, []).
Proof. repeat split; reflexivity. Qed.

(** C2.  The [obs_air] message of the scenario, with alias table
    [{outTemp: "air_temperature.AR-00004424.obs_air"}], flattens and
    projects to the record holding [dateTime = 1600000000],
    [usUnits = METRICWX] and [outTemp = 22.3] and nothing else, without
    logging; as a dict it equals the record as the scenario lists it. *)
Theorem C2_obs_air_scenario (METRICWX : value) (now : Z) :
  flatten_project METRICWX
    [("outTemp", "air_temperature.AR-00004424.obs_air")] now obs_air_example
  = (inr [ ("dateTime", VInt 1600000000);
           ("usUnits", METRICWX);
           ("outTemp", VFloat (S754_finite false 6276891980647629 (-48))) ],
     []) /\
  dict_eq
    [ ("dateTime", VInt 1600000000);
      ("usUnits", METRICWX);
      ("outTemp", VFloat (S754_finite false 6276891980647629 (-48))) ]
    [ ("dateTime", VInt 1600000000);
      ("outTemp", VFloat (S754_finite false 6276891980647629 (-48)));
      ("usUnits", METRICWX) ].
Proof.
  split; [reflexivity|].
  intros k. cbn [dict_get].
  destruct (String.eqb k "dateTime"); [reflexivity|].
  destruct (String.eqb_spec k "usUnits") as [->|N]; [reflexivity|].
  destruct (String.eqb k "outTemp"); reflexivity.
Qed.

(** C5.  A message without the key [serial_number] or without the key
    [type] flattens to the empty record, one "Corrupt UDP packet?" line is
    logged at INFO, and nothing is raised: projection then returns the
    empty record and the loop of [genLoopPackets] yields nothing. *)
Theorem C5_corrupt_packet_empty (now : Z) (pkt : dict value) :
  dict_in "serial_number" pkt = false \/ dict_in "type" pkt = false ->
  parseUDPPacket now pkt = (inr [], [(INFO, Corrupt_UDP_packet pkt)]) /\
  forall (METRICWX : value) (sensor_map : dict string),
    flatten_project METRICWX sensor_map now pkt
      = (inr [], [(INFO, Corrupt_UDP_packet pkt)]) /\
    genLoopPackets_step METRICWX sensor_map now pkt
      = (inr None, [(INFO, Corrupt_UDP_packet pkt)]).
Proof.
  intros H. pose proof (parseUDPPacket_corrupt now pkt H) as P.
  split; [exact P|]. intros METRICWX sm.
  assert (S : sendMyLoopPacket METRICWX [] sm = ret []).
  { rewrite sendMyLoopPacket_fold. f_equal.
    apply alias_fold_miss. reflexivity. }
  unfold flatten_project, genLoopPackets_step. rewrite P.
  cbn [bind]. rewrite S. split; reflexivity.
Qed.

Lemma C5_corrupt_packet_empty_witness :
  (dict_in "serial_number" (@nil (string * value)) = false \/
   dict_in "type" (@nil (string * value)) = false) /\
  parseUDPPacket 0 [] = (inr [], [(INFO, Corrupt_UDP_packet [])]).
Proof.
  split; [left; reflexivity|].
  exact (proj1 (C5_corrupt_packet_empty 0 [] (or_introl eq_refl))).
Defined.

(** C6.  Projection always returns a record and logs nothing.  It starts
    from [{dateTime: pkt['time_epoch'], usUnits: METRICWX}] when the record
    has [time_epoch] and from the empty record otherwise (this is what an
    empty alias table gives).  For an alias table that is a dict, the
    output holds under each alias name the record's value at the
    normalized dotted key when the record has that key, and what it
    started with under that name when it has not; names that are not
    aliases keep what the output started with. *)
Theorem C6_projection_total (METRICWX : value) (pkt : dict value)
    (sensor_map : dict string) :
  let start :=
    match dict_get "time_epoch" pkt with
    | Some t => [("dateTime", t); ("usUnits", METRICWX)]
    | None => []
    end in
  sendMyLoopPacket METRICWX pkt [] = (inr start, []) /\
  exists out,
    sendMyLoopPacket METRICWX pkt sensor_map = (inr out, []) /\
    (forall w, ~ In w (dict_keys sensor_map) ->
       dict_get w out = dict_get w start) /\
    (dict_wf sensor_map ->
     forall w lbl, In (w, lbl) sensor_map ->
       dict_get w out =
       match dict_get (str_replace "-" "_" lbl) pkt with
       | Some v => Some v
       | None => dict_get w start
       end).
Proof.
  intros start.
  assert (E : start = seed METRICWX pkt) by reflexivity.
  clearbody start. subst start. split.
  - rewrite sendMyLoopPacket_fold. reflexivity.
  - exists (fold_left (alias_step pkt) sensor_map (seed METRICWX pkt)).
    split; [apply sendMyLoopPacket_fold|]. split.
    + intros w NI.
      generalize (seed METRICWX pkt) as p.
      induction sensor_map as [|[w0 l0] sm IH]; intros p; cbn [fold_left];
        [reflexivity|].
      rewrite IH by (intros I; apply NI; now right).
      unfold alias_step. cbn [fst snd].
      destruct (dict_get (normalize l0) pkt); [|reflexivity].
      apply dict_get_set_other. intros ->. apply NI. now left.
    + intros W w lbl I.
      rewrite (alias_fold_get pkt sensor_map _ w W).
      now rewrite (dict_wf_In_get _ _ _ W I).
Qed.

Lemma C6_projection_total_witness :
  dict_wf [("x", "a.B-1.t"); ("y", "b.B-1.t")] /\
  exists out,
    sendMyLoopPacket (VInt 17)
      [("time_epoch", VInt 5); ("a.B_1.t", VInt 7)]
      [("x", "a.B-1.t"); ("y", "b.B-1.t")] = (inr out, []) /\
    dict_get "x" out = Some (VInt 7) /\
    dict_get "y" out = None /\
    dict_get "dateTime" out = Some (VInt 5).
Proof.
  assert (W : dict_wf [("x", "a.B-1.t"); ("y", "b.B-1.t")]).
  { unfold dict_wf. simpl. repeat constructor; simpl; intuition discriminate. }
  split; [exact W|].
  destruct (C6_projection_total (VInt 17)
              [("time_epoch", VInt 5); ("a.B_1.t", VInt 7)]
              [("x", "a.B-1.t"); ("y", "b.B-1.t")])
    as (_ & out & E & Hother & Halias).
  exists out. split; [exact E|]. repeat split.
  - exact (Halias W "x" "a.B-1.t" (or_introl eq_refl)).
  - exact (Halias W "y" "b.B-1.t" (or_intror (or_introl eq_refl))).
  - apply (Hother "dateTime"). simpl. intuition discriminate.
Defined.

(** C10 (counterexample).  The Flattened Record of the message
    [{"serial_number": "HB-1", "type": "X_a-b"}] has [time_epoch] and the
    key [type.HB_1.X_a-b].  An alias table that gives [dateTime] that very
    dotted key does not overwrite the seed: the projection looks up
    [type.HB_1.X_a_b], which the record does not have, and [dateTime] stays
    the seeded timestamp. *)
Lemma C10_hyphenated_key_counterexample :
  exists rec,
    parseUDPPacket 1600000000 (bare_message "HB-1" "X_a-b") = (inr rec, []) /\
    dict_get "time_epoch" rec = Some (VInt 1600000000) /\
    dict_get "type.HB_1.X_a-b" rec = Some (VStr "X_a-b") /\
    sendMyLoopPacket (VInt 17) rec [("dateTime", "type.HB_1.X_a-b")]
    = (inr [("dateTime", VInt 1600000000); ("usUnits", VInt 17)], []) /\
    Some (VInt 1600000000) <> Some (VStr "X_a-b").
Proof.
  eexists. split; [reflexivity|].
  split; [reflexivity|]. split; [reflexivity|]. split; [reflexivity|].
  discriminate.
Qed.

(** C10 (amended).  The alias loop runs after the seeding, so when the
    record has [time_epoch] and the alias table (a dict) gives [dateTime] or
    [usUnits] a dotted key whose form with hyphens replaced by underscores
    is a key of the record, the output holds the record's value at that
    normalized key under the name, in place of the seeded timestamp or
    unit-system tag that the empty alias table leaves there. *)
Theorem C10_alias_overwrites_seed (METRICWX : value) (pkt : dict value)
    (sensor_map : dict string) (t v : value) (w lbl : string) :
  dict_wf sensor_map ->
  dict_get "time_epoch" pkt = Some t ->
  w = "dateTime" \/ w = "usUnits" ->
  In (w, lbl) sensor_map ->
  dict_get (str_replace "-" "_" lbl) pkt = Some v ->
  sendMyLoopPacket METRICWX pkt []
    = (inr [("dateTime", t); ("usUnits", METRICWX)], []) /\
  exists out,
    sendMyLoopPacket METRICWX pkt sensor_map = (inr out, []) /\
    dict_get w out = Some v.
Proof.
  intros W T _ I G. split.
  - rewrite sendMyLoopPacket_fold. unfold seed. now rewrite T.
  - exists (fold_left (alias_step pkt) sensor_map (seed METRICWX pkt)).
    split; [apply sendMyLoopPacket_fold|].
    rewrite (alias_fold_get pkt sensor_map _ w W).
    rewrite (dict_wf_In_get _ _ _ W I). unfold normalize. now rewrite G.
Qed.

Lemma C10_alias_overwrites_seed_witness :
  dict_wf [("dateTime", "a.B-1.t")] /\
  dict_get "time_epoch" [("time_epoch", VInt 5); ("a.B_1.t", VInt 7)]
    = Some (VInt 5) /\
  sendMyLoopPacket (VInt 17) [("time_epoch", VInt 5); ("a.B_1.t", VInt 7)] []
    = (inr [("dateTime", VInt 5); ("usUnits", VInt 17)], []) /\
  exists out,
    sendMyLoopPacket (VInt 17) [("time_epoch", VInt 5); ("a.B_1.t", VInt 7)]
      [("dateTime", "a.B-1.t")] = (inr out, []) /\
    dict_get "dateTime" out = Some (VInt 7).
Proof.
  assert (W : dict_wf [("dateTime", "a.B-1.t")]).
  { unfold dict_wf. simpl. repeat constructor; simpl; intuition. }
  split; [exact W|]. split; [reflexivity|].
  exact (C10_alias_overwrites_seed (VInt 17)
           [("time_epoch", VInt 5); ("a.B_1.t", VInt 7)]
           [("dateTime", "a.B-1.t")] (VInt 5) (VInt 7) "dateTime" "a.B-1.t"
           W eq_refl (or_introl eq_refl) (or_introl eq_refl) eq_refl).
Defined.

(** C7 (counterexample).  Flattening reads the clock for a type that starts
    with [X_]: the same message flattened at two different seconds gives
    two different records. *)
Lemma C7_clock_counterexample :
  parseUDPPacket 1600000000 (bare_message "HB-00000001" "X_custom") <>
  parseUDPPacket 1600000001 (bare_message "HB-00000001" "X_custom").
Proof. vm_compute. discriminate. Qed.

(** A type that starts with [X_] reaches the clock branch of the dispatch. *)
Lemma dispatch_extension (now : Z) (pkt : dict value) (ty label : string)
    (p : dict value) :
  String.eqb (substring 0 2 ty) "X_" = true ->
  dispatch now pkt ty label p = ret (dict_set "time_epoch" (VInt now) p).
Proof.
  intros X. apply String.eqb_eq in X.
  destruct ty as [|c1 [|c2 ty]]; try discriminate.
  cbn in X. injection X as -> -> _. destruct ty; reflexivity.
Qed.

(** C7 (amended).  For a message whose type does not start with [X_] the
    outcome of flattening (record, log, or exception) is the same whatever
    the clock reads; for a message with a string [serial_number] and a type
    starting with [X_], the records of any two calls are one and the same
    record except for [time_epoch], which holds the clock's reading at the
    call. *)
Theorem C7_flatten_up_to_clock (pkt : dict value) :
  ((forall ty, dict_get "type" pkt = Some (VStr ty) ->
      String.eqb (substring 0 2 ty) "X_" = false) ->
   forall now1 now2, parseUDPPacket now1 pkt = parseUDPPacket now2 pkt) /\
  (forall sn ty,
     dict_get "serial_number" pkt = Some (VStr sn) ->
     dict_get "type" pkt = Some (VStr ty) ->
     String.eqb (substring 0 2 ty) "X_" = true ->
     exists raw, forall now,
       parseUDPPacket now pkt
       = (inr (dict_set "time_epoch" (VInt now) raw), [])).
Proof.
  split.
  - intros H now1 now2.
    destruct (dict_get "serial_number" pkt) as [snv|] eqn:Hsn;
      [|unfold parseUDPPacket; now rewrite !dict_in_get, Hsn].
    destruct (dict_get "type" pkt) as [tyv|] eqn:Hty;
      [|unfold parseUDPPacket; now rewrite !dict_in_get, Hsn, Hty].
    destruct snv as [| | | |sn| |];
      try (unfold parseUDPPacket;
           rewrite !dict_in_get, Hsn, Hty, (getitem_Some _ _ _ Hsn);
           reflexivity).
    destruct tyv as [| | | |ty| |];
      try (unfold parseUDPPacket;
           rewrite !dict_in_get, Hsn, Hty, (getitem_Some _ _ _ Hsn),
             (getitem_Some _ _ _ Hty);
           reflexivity).
    rewrite !(parseUDPPacket_dispatch _ pkt sn ty Hsn Hty).
    unfold dispatch. rewrite (H ty eq_refl). reflexivity.
  - intros sn ty Hsn Hty X.
    exists (fold_left (raw_step pkt (label_of sn ty)) (dict_keys pkt) []).
    intros now. rewrite (parseUDPPacket_dispatch _ pkt sn ty Hsn Hty).
    now apply dispatch_extension.
Qed.

Lemma C7_flatten_up_to_clock_witness :
  (forall ty, dict_get "type" obs_air_example = Some (VStr ty) ->
     String.eqb (substring 0 2 ty) "X_" = false) /\
  parseUDPPacket 1600000000 obs_air_example
  = parseUDPPacket 1600000001 obs_air_example.
Proof.
  assert (H : forall ty, dict_get "type" obs_air_example = Some (VStr ty) ->
                String.eqb (substring 0 2 ty) "X_" = false).
  { intros ty E. injection E as <-. reflexivity. }
  split; [exact H|].
  exact (proj1 (C7_flatten_up_to_clock obs_air_example) H
           1600000000%Z 1600000001%Z).
Defined.

(** C8 (counterexample).  For an [X_custom] message the projection through
    the empty alias table holds [usUnits] next to [dateTime], and an alias
    of a raw-field key adds a third field. *)
Lemma C8_extension_counterexample :
  flatten_project (VInt 17) [] 1600000000
    (bare_message "HB-00000001" "X_custom")
  = (inr [("dateTime", VInt 1600000000); ("usUnits", VInt 17)], []) /\
  flatten_project (VInt 17) [("hub", "serial_number.HB-00000001.X_custom")]
    1600000000 (bare_message "HB-00000001" "X_custom")
  = (inr [("dateTime", VInt 1600000000); ("usUnits", VInt 17);
          ("hub", VStr "HB-00000001")], []) /\
  [("dateTime", VInt 1600000000); ("usUnits", VInt 17)]
  <> [("dateTime", VInt 1600000000)].
Proof. split; [reflexivity | split; [reflexivity | discriminate]]. Qed.

(** C8 (amended).  For a message with a string [serial_number] and a type
    starting with [X_], and an alias table none of whose normalized dotted
    keys is [time_epoch] or a raw-field key of the message, the output
    record is exactly [dateTime], set to the clock's reading, and
    [usUnits], set to the unit-system tag; the loop of [genLoopPackets]
    does not yield it. *)
Theorem C8_extension_output (METRICWX : value) (sensor_map : dict string)
    (now : Z) (pkt : dict value) (sn ty : string) :
  dict_get "serial_number" pkt = Some (VStr sn) ->
  dict_get "type" pkt = Some (VStr ty) ->
  String.eqb (substring 0 2 ty) "X_" = true ->
  (forall w lbl, In (w, lbl) sensor_map ->
     str_replace "-" "_" lbl <> "time_epoch" /\
     forall k, In k (dict_keys pkt) ->
       str_replace "-" "_" lbl <> composite_key k (label_of sn ty)) ->
  flatten_project METRICWX sensor_map now pkt
  = (inr [("dateTime", VInt now); ("usUnits", METRICWX)], []) /\
  genLoopPackets_step METRICWX sensor_map now pkt = (inr None, []).
Proof.
  intros Hsn Hty X Hmiss.
  set (raw := fold_left (raw_step pkt (label_of sn ty)) (dict_keys pkt) []).
  assert (P : parseUDPPacket now pkt
              = ret (dict_set "time_epoch" (VInt now) raw)).
  { rewrite (parseUDPPacket_dispatch _ pkt sn ty Hsn Hty).
    now apply dispatch_extension. }
  assert (S : sendMyLoopPacket METRICWX
                (dict_set "time_epoch" (VInt now) raw) sensor_map
              = ret [("dateTime", VInt now); ("usUnits", METRICWX)]).
  { rewrite sendMyLoopPacket_fold. f_equal.
    unfold seed. rewrite dict_get_set_same.
    apply alias_fold_miss. intros w lbl I.
    destruct (Hmiss w lbl I) as [Nt Nraw]. unfold normalize.
    rewrite (dict_get_set_other _ _ _ _ Nt).
    apply dict_get_None. intros K.
    apply dict_get_keys in K as [v G]. apply dict_get_In in G.
    apply raw_fold_entries in G as [[]|(k0 & I0 & E & _)].
    exact (Nraw k0 I0 E). }
  unfold flatten_project, genLoopPackets_step.
  rewrite P, !bind_ret_l, S. split; reflexivity.
Qed.

Lemma C8_extension_output_witness :
  (forall w lbl, In (w, lbl) [("outTemp", "air_temperature.AR-00004424.obs_air")] ->
     str_replace "-" "_" lbl <> "time_epoch" /\
     forall k, In k (dict_keys (bare_message "HB-00000001" "X_custom")) ->
       str_replace "-" "_" lbl
       <> composite_key k (label_of "HB-00000001" "X_custom")) /\
  flatten_project (VInt 17)
    [("outTemp", "air_temperature.AR-00004424.obs_air")] 1600000000
    (bare_message "HB-00000001" "X_custom")
  = (inr [("dateTime", VInt 1600000000); ("usUnits", VInt 17)], []).
Proof.
  assert (H : forall w lbl,
            In (w, lbl) [("outTemp", "air_temperature.AR-00004424.obs_air")] ->
            str_replace "-" "_" lbl <> "time_epoch" /\
            forall k, In k (dict_keys (bare_message "HB-00000001" "X_custom")) ->
              str_replace "-" "_" lbl
              <> composite_key k (label_of "HB-00000001" "X_custom")).
  { intros w lbl [[= <- <-]|[]]. split; [discriminate|].
    intros k [<-|[<-|[]]]; discriminate. }
  split; [exact H|].
  exact (proj1 (C8_extension_output (VInt 17)
                  [("outTemp", "air_temperature.AR-00004424.obs_air")]
                  1600000000 (bare_message "HB-00000001" "X_custom")
                  "HB-00000001" "X_custom" eq_refl eq_refl eq_refl H)).
Defined.

(** ** Where the entries of a Flattened Record come from *)

Lemma subscript0_ret (v x : value) (l : list logrec) :
  subscript0 v = (inr x, l) -> subscript0 v = ret x.
Proof. intros H. destruct (subscript0_inr _ _ _ H) as [-> _]. exact H. Qed.

Lemma iter_ret (v : value) (xs : list value) (l : list logrec) :
  iter v = (inr xs, l) -> iter v = ret xs.
Proof. intros H. destruct (iter_inr _ _ _ H) as [-> _]. exact H. Qed.

(** The positional part of the dispatch: the timestamp is [a[0]], the
    zipped values come out of iterating [a]. *)
Lemma zip_branch_entries (label : string) (names : list string) (a t : value)
    (p rec : dict value) (log : list logrec) (k : string) (v : value) :
  subscript0 a = ret t ->
  (values <- iter a ;;
   store_zip names values label (dict_set "time_epoch" t p)) = (inr rec, log) ->
  In (k, v) rec ->
  In (k, v) p \/
  ((k = "time_epoch" \/ exists f, k = f ++ "." ++ label) /\ elem v a).
Proof.
  intros St H I.
  bind_step H values Hit. apply iter_ret in Hit.
  rewrite store_zip_fold in H. apply ret_inr in H as [<- _].
  apply zip_fold_entries in I as [I|(f & -> & I)].
  - apply dict_set_In in I as [[-> ->]|I]; [|now left].
    right. split; [now left | now left].
  - right. split; [right; now exists f|].
    right. exists values. split; [exact Hit|]. eapply in_combine_r; eassumption.
Qed.

Lemma dispatch_entries (now : Z) (pkt : dict value) (ty label : string)
    (p rec : dict value) (log : list logrec) (k : string) (v : value) :
  dispatch now pkt ty label p = (inr rec, log) ->
  In (k, v) rec ->
  In (k, v) p \/
  (k = "time_epoch" /\ v = VInt now) \/
  (k = "time_epoch" /\ dict_get "timestamp" pkt = Some v) \/
  ((k = "time_epoch" \/ exists f, k = f ++ "." ++ label) /\
   exists key a, key <> "obs" /\ dict_get key pkt = Some a /\ elem v a) \/
  ((k = "time_epoch" \/ exists f, k = f ++ "." ++ label) /\
   exists a b, dict_get "obs" pkt = Some a /\ subscript0 a = ret b /\
               elem v b).
Proof.
  unfold dispatch. intros H I.
  destruct (in_tuple ty ["obs_air"; "obs_sky"; "obs_st"]).
  { bind_step H obs G. apply getitem_inr in G as [G ->].
    bind_step H obs0 S0. apply subscript0_ret in S0.
    bind_step H t St. apply subscript0_ret in St.
    bind_step H names Gn.
    bind_step H obs' G'. apply getitem_inr in G' as [G' ->].
    rewrite G in G'. injection G' as <-.
    bind_step H obs0' S0'. apply subscript0_ret in S0'.
    rewrite S0 in S0'. injection S0' as <-.
    destruct (zip_branch_entries _ _ _ _ _ _ _ _ _ St H I) as [L|[K E]];
      [now left|].
    do 4 right. split; [exact K|]. now exists obs, obs0. }
  destruct (String.eqb ty "rapid_wind").
  { bind_step H ob G. apply getitem_inr in G as [G ->].
    bind_step H t St. apply subscript0_ret in St.
    bind_step H names Gn.
    bind_step H ob' G'. apply getitem_inr in G' as [G' ->].
    rewrite G in G'. injection G' as <-.
    destruct (zip_branch_entries _ _ _ _ _ _ _ _ _ St H I) as [L|[K E]];
      [now left|].
    do 3 right. left. split; [exact K|].
    exists "ob", ob. repeat split; trivial. discriminate. }
  destruct (in_tuple ty ["evt_strike"; "evt_precip"]).
  { bind_step H evt G. apply getitem_inr in G as [G ->].
    bind_step H t St. apply subscript0_ret in St.
    bind_step H names Gn.
    bind_step H evt' G'. apply getitem_inr in G' as [G' ->].
    rewrite G in G'. injection G' as <-.
    destruct (zip_branch_entries _ _ _ _ _ _ _ _ _ St H I) as [L|[K E]];
      [now left|].
    do 3 right. left. split; [exact K|].
    exists "evt", evt. repeat split; trivial. discriminate. }
  assert (Status :
    (t <- getitem "timestamp" pkt ;; ret (dict_set "time_epoch" t p))
      = (inr rec, log) ->
    In (k, v) p \/ (k = "time_epoch" /\ dict_get "timestamp" pkt = Some v)).
  { intros H'. bind_step H' t G. apply getitem_inr in G as [G ->].
    apply ret_inr in H' as [<- _].
    apply dict_set_In in I as [[-> ->]|I]; [right; now split | now left]. }
  destruct (String.eqb ty "device_status").
  { destruct (Status H) as [L|R]; [now left | right; right; now left]. }
  destruct (String.eqb ty "hub_status").
  { destruct (Status H) as [L|R]; [now left | right; right; now left]. }
  clear Status.
  destruct (String.eqb (substring 0 2 ty) "X_").
  { apply ret_inr in H as [<- _].
    apply dict_set_In in I as [[-> ->]|I]; [right; left; now split | now left]. }
  cbn in H. injection H as <- _. now left.
Qed.

(** Every entry of a Flattened Record, for a message with a string
    [serial_number] and a string [type]. *)
Lemma parseUDPPacket_entries (now : Z) (pkt : dict value) (sn ty : string)
    (rec : dict value) (log : list logrec) (k : string) (v : value) :
  dict_get "serial_number" pkt = Some (VStr sn) ->
  dict_get "type" pkt = Some (VStr ty) ->
  parseUDPPacket now pkt = (inr rec, log) ->
  In (k, v) rec ->
  (exists k0, In k0 (dict_keys pkt) /\ k = k0 ++ "." ++ label_of sn ty /\
              dict_get k0 pkt = Some v) \/
  (k = "time_epoch" /\ v = VInt now) \/
  (k = "time_epoch" /\ dict_get "timestamp" pkt = Some v) \/
  ((k = "time_epoch" \/ exists f, k = f ++ "." ++ label_of sn ty) /\
   exists key a, key <> "obs" /\ dict_get key pkt = Some a /\ elem v a) \/
  ((k = "time_epoch" \/ exists f, k = f ++ "." ++ label_of sn ty) /\
   exists a b, dict_get "obs" pkt = Some a /\ subscript0 a = ret b /\
               elem v b).
Proof.
  intros Hsn Hty P I.
  rewrite (parseUDPPacket_dispatch _ pkt sn ty Hsn Hty) in P.
  destruct (dispatch_entries _ _ _ _ _ _ _ _ _ P I) as [R|R]; [|now right].
  left. apply raw_fold_entries in R as [[]|R]. exact R.
Qed.

(** A record is returned only for a message without [serial_number] or
    [type], where it is empty, or with both as strings. *)
Lemma parseUDPPacket_returns (now : Z) (pkt : dict value)
    (rec : dict value) (log : list logrec) :
  parseUDPPacket now pkt = (inr rec, log) ->
  rec = [] \/
  exists sn ty, dict_get "serial_number" pkt = Some (VStr sn) /\
                dict_get "type" pkt = Some (VStr ty).
Proof.
  intros P.
  destruct (dict_in "serial_number" pkt) eqn:Isn;
    [|rewrite parseUDPPacket_corrupt in P by (now left);
      injection P as <- _; now left].
  destruct (dict_in "type" pkt) eqn:Ity;
    [|rewrite parseUDPPacket_corrupt in P by (now right);
      injection P as <- _; now left].
  right. unfold parseUDPPacket in P. rewrite Isn, Ity in P.
  bind_step P snv G. apply getitem_inr in G as [Gsn ->].
  bind_step P sn E. destruct snv; try discriminate.
  apply ret_inr in E as [-> ->].
  bind_step P tyv G. apply getitem_inr in G as [Gty ->].
  bind_step P ty E. destruct tyv; try discriminate.
  apply ret_inr in E as [-> ->].
  now exists sn, ty.
Qed.

(** ** Scalars *)

Lemma str_chars_scalar (s : string) (v : value) :
  In v (str_chars s) -> scalar v = true.
Proof.
  induction s as [|c s IH]; simpl; [tauto|].
  intros [<-|I]; [reflexivity | now apply IH].
Qed.

(** The first element of a value of the data model is a scalar or an array
    of scalars. *)
Lemma subscript0_data_model (a b : value) :
  scalar a = true \/ flat_array a = true \/ nested_array a = true ->
  subscript0 a = ret b ->
  scalar b = true \/ flat_array b = true.
Proof.
  intros T S. apply subscript0_inr in S as [_ [[r ->]|(c & s & -> & ->)]].
  - destruct T as [T|[T|T]]; simpl in T.
    + discriminate.
    + left. now apply andb_true_iff in T as [T _].
    + right. now apply andb_true_iff in T as [T _].
  - now left.
Qed.

(** What is read out of a scalar or out of an array of scalars is a
    scalar. *)
Lemma elem_scalar (v b : value) :
  scalar b = true \/ flat_array b = true -> elem v b -> scalar v = true.
Proof.
  intros T [S|(xs & It & I)].
  - apply subscript0_inr in S as [_ [[r ->]|(c & s & -> & ->)]];
      [|reflexivity].
    destruct T as [T|T]; simpl in T; [discriminate|].
    now apply andb_true_iff in T as [T _].
  - apply iter_inr in It as [_ [->|[(s & -> & ->)|(d & -> & ->)]]].
    + destruct T as [T|T]; simpl in T; [discriminate|].
      rewrite forallb_forall in T. now apply T.
    + now apply str_chars_scalar in I.
    + destruct T as [T|T]; discriminate.
Qed.

(** C9 (counterexample).  The raw-field copy stores the whole [obs] array
    of the [obs_air] message under [obs.AR_00004424.obs_air]: a value of
    the Flattened Record that is not a scalar. *)
Lemma C9_raw_copy_counterexample :
  exists rec v,
    parseUDPPacket 0 obs_air_example = (inr rec, []) /\
    dict_get "obs.AR_00004424.obs_air" rec = Some v /\
    scalar v = false.
Proof. do 2 eexists. repeat split; reflexivity. Qed.

(** C9 (amended).  For a message of the data model (top-level values that
    are scalars or arrays of scalars, [obs] an array of such arrays), every
    value of the Flattened Record is a scalar or is one of the message's
    top-level values, copied as it is. *)
Theorem C9_values_scalar_or_verbatim (now : Z) (pkt rec : dict value)
    (log : list logrec) (k : string) (v : value) :
  data_model pkt ->
  parseUDPPacket now pkt = (inr rec, log) ->
  dict_get k rec = Some v ->
  scalar v = true \/ exists k0, dict_get k0 pkt = Some v.
Proof.
  intros D P G. apply dict_get_In in G.
  destruct (parseUDPPacket_returns _ _ _ _ P) as [->|(sn & ty & Hsn & Hty)];
    [destruct G|].
  destruct (parseUDPPacket_entries _ _ _ _ _ _ _ _ Hsn Hty P G)
    as [(k0 & _ & _ & R)|[[_ ->]|[[_ R]|[[_ (key & a & N & Ga & E)]
       |[_ (a & b & Ga & S & E)]]]]].
  - right. now exists k0.
  - now left.
  - right. now exists "timestamp".
  - left. apply (elem_scalar v a); [|exact E].
    destruct (D key a Ga) as [T|[T|[T _]]]; [now left | now right | congruence].
  - left. apply (elem_scalar v b); [|exact E].
    apply (subscript0_data_model a b); [|exact S].
    destruct (D "obs" a Ga) as [T|[T|[_ T]]]; auto.
Qed.

Lemma obs_air_example_data_model : data_model obs_air_example.
Proof.
  intros k v. unfold obs_air_example. cbn [dict_get].
  destruct (String.eqb k "serial_number"); [intros [= <-]; now left|].
  destruct (String.eqb k "type"); [intros [= <-]; now left|].
  destruct (String.eqb_spec k "obs") as [->|_]; [|discriminate].
  intros [= <-]. right; right. split; reflexivity.
Qed.

Lemma C9_values_scalar_or_verbatim_witness :
  data_model obs_air_example /\
  (scalar (VFloat (S754_finite false 6276891980647629 (-48))) = true \/
   exists k0, dict_get k0 obs_air_example
              = Some (VFloat (S754_finite false 6276891980647629 (-48)))).
Proof.
  split; [exact obs_air_example_data_model|].
  refine (C9_values_scalar_or_verbatim 0 obs_air_example _ []
            "air_temperature.AR_00004424.obs_air" _
            obs_air_example_data_model _ _); reflexivity.
Defined.

(** ** Composite keys of different sensors *)

(** Splitting at the last dot: the part after it has none. *)
Lemma dot_split (a b s t : string) :
  a ++ "." ++ s = b ++ "." ++ t ->
  has_char "." s = false -> has_char "." t = false ->
  a = b /\ s = t.
Proof.
  revert b; induction a as [|x a IH]; intros [|y b] E Hs Ht; simpl in E.
  - injection E as ->. now split.
  - injection E as _ E.
    assert (D : has_char "." s = true) by (subst s; apply composite_has_dot).
    congruence.
  - injection E as _ E.
    assert (D : has_char "." t = true) by (subst t; apply composite_has_dot).
    congruence.
  - injection E as -> E. destruct (IH b E Hs Ht) as [-> ->]. now split.
Qed.

Lemma has_dot_normalize (s : string) :
  has_char "." (normalize s) = has_char "." s.
Proof.
  unfold normalize. induction s as [|c s IH]; simpl; [reflexivity|].
  rewrite IH. destruct (Ascii.eqb_spec c "-") as [->|N]; reflexivity.
Qed.

(** A composite key determines its field, normalized hardware id and packet
    type, when neither the id nor the type has a dot. *)
Lemma composite_key_inj (f1 f2 sn1 sn2 ty1 ty2 : string) :
  has_char "." sn1 = false -> has_char "." ty1 = false ->
  has_char "." sn2 = false -> has_char "." ty2 = false ->
  composite_key f1 (label_of sn1 ty1) = composite_key f2 (label_of sn2 ty2) ->
  f1 = f2 /\ normalize sn1 = normalize sn2 /\ ty1 = ty2.
Proof.
  unfold composite_key, label_of. intros S1 T1 S2 T2 E.
  assert (E' : (f1 ++ "." ++ normalize sn1) ++ "." ++ ty1
               = (f2 ++ "." ++ normalize sn2) ++ "." ++ ty2)
    by (rewrite !append_assoc; exact E).
  apply dot_split in E' as [E' ->]; trivial.
  apply dot_split in E' as [-> E']; rewrite ?has_dot_normalize; auto.
Qed.

(** Every key of a Flattened Record is [time_epoch] or a composite key
    with the label of the message. *)
Lemma parseUDPPacket_key_shape (now : Z) (pkt : dict value) (sn ty : string)
    (rec : dict value) (log : list logrec) (k : string) (v : value) :
  dict_get "serial_number" pkt = Some (VStr sn) ->
  dict_get "type" pkt = Some (VStr ty) ->
  parseUDPPacket now pkt = (inr rec, log) ->
  dict_get k rec = Some v ->
  k = "time_epoch" \/ exists f, k = composite_key f (label_of sn ty).
Proof.
  intros Hsn Hty P G. apply dict_get_In in G. unfold composite_key.
  destruct (parseUDPPacket_entries _ _ _ _ _ _ _ _ Hsn Hty P G)
    as [(k0 & _ & -> & _)|[[-> _]|[[-> _]|[[K _]|[K _]]]]]; auto.
  right. now exists k0.
Qed.

(** C4 (counterexample).  Two hardware ids that differ only by a hyphen
    against an underscore normalize to the same id, and two ids of which
    one has a dot can give the same label with different types: in both
    cases messages with distinct [serial_number] strings write the same
    composite key. *)
Lemma C4_collision_counterexample :
  "AR-00004424" <> "AR_00004424" /\
  (exists rec1 rec2,
     parseUDPPacket 0
       (message_with "AR-00004424" "obs_air" "obs" (VList [VList [VInt 1]]))
       = (inr rec1, []) /\
     parseUDPPacket 0
       (message_with "AR_00004424" "obs_air" "obs" (VList [VList [VInt 2]]))
       = (inr rec2, []) /\
     dict_get "time_epoch.AR_00004424.obs_air" rec1 = Some (VInt 1) /\
     dict_get "time_epoch.AR_00004424.obs_air" rec2 = Some (VInt 2)) /\
  "HB" <> "HB.X_a" /\
  (exists rec1 rec2,
     parseUDPPacket 0 (bare_message "HB" "X_a.b") = (inr rec1, []) /\
     parseUDPPacket 0 (bare_message "HB.X_a" "b")
       = (inr rec2, [(ERROR, Unknown_packet_type "b")]) /\
     dict_get "type.HB.X_a.b" rec1 = Some (VStr "X_a.b") /\
     dict_get "type.HB.X_a.b" rec2 = Some (VStr "b")).
Proof.
  split; [discriminate|]. split.
  - do 2 eexists. repeat split; reflexivity.
  - split; [discriminate|]. do 2 eexists. repeat split; reflexivity.
Qed.

(** C4 (amended).  For two messages whose hardware ids differ after the
    normalization, and whose ids and types have no dot, every key of either
    Flattened Record is [time_epoch] or embeds the field, the normalized id
    and the type of its message; no composite key of the one is a composite
    key of the other, whatever the fields, so the two records share no key
    but [time_epoch]. *)
Theorem C4_keys_apart (now1 now2 : Z) (pkt1 pkt2 : dict value)
    (sn1 ty1 sn2 ty2 : string) (rec1 rec2 : dict value)
    (log1 log2 : list logrec) :
  dict_get "serial_number" pkt1 = Some (VStr sn1) ->
  dict_get "type" pkt1 = Some (VStr ty1) ->
  dict_get "serial_number" pkt2 = Some (VStr sn2) ->
  dict_get "type" pkt2 = Some (VStr ty2) ->
  has_char "." sn1 = false -> has_char "." ty1 = false ->
  has_char "." sn2 = false -> has_char "." ty2 = false ->
  str_replace "-" "_" sn1 <> str_replace "-" "_" sn2 ->
  parseUDPPacket now1 pkt1 = (inr rec1, log1) ->
  parseUDPPacket now2 pkt2 = (inr rec2, log2) ->
  (forall k v, dict_get k rec1 = Some v ->
     k = "time_epoch" \/ exists f, k = composite_key f (label_of sn1 ty1)) /\
  (forall k v, dict_get k rec2 = Some v ->
     k = "time_epoch" \/ exists f, k = composite_key f (label_of sn2 ty2)) /\
  (forall f1 f2,
     composite_key f1 (label_of sn1 ty1)
     <> composite_key f2 (label_of sn2 ty2)) /\
  (forall k v1 v2,
     dict_get k rec1 = Some v1 -> dict_get k rec2 = Some v2 ->
     k = "time_epoch").
Proof.
  intros Hsn1 Hty1 Hsn2 Hty2 S1 T1 S2 T2 N P1 P2.
  assert (Apart : forall f1 f2,
            composite_key f1 (label_of sn1 ty1)
            <> composite_key f2 (label_of sn2 ty2)).
  { intros f1 f2 E.
    apply composite_key_inj in E as (_ & E & _); trivial.
    now apply N. }
  repeat split.
  - intros k v. now apply (parseUDPPacket_key_shape now1 pkt1 sn1 ty1 rec1 log1).
  - intros k v. now apply (parseUDPPacket_key_shape now2 pkt2 sn2 ty2 rec2 log2).
  - exact Apart.
  - intros k v1 v2 G1 G2.
    destruct (parseUDPPacket_key_shape _ _ _ _ _ _ _ _ Hsn1 Hty1 P1 G1)
      as [->|[f1 E1]]; [reflexivity|].
    destruct (parseUDPPacket_key_shape _ _ _ _ _ _ _ _ Hsn2 Hty2 P2 G2)
      as [->|[f2 E2]]; [reflexivity|].
    exfalso. apply (Apart f1 f2). congruence.
Qed.

Lemma C4_keys_apart_witness :
  str_replace "-" "_" "AR-00004424" <> str_replace "-" "_" "SK-00001234" /\
  composite_key "battery" (label_of "AR-00004424" "obs_air")
  <> composite_key "battery" (label_of "SK-00001234" "obs_sky").
Proof.
  assert (N : str_replace "-" "_" "AR-00004424"
              <> str_replace "-" "_" "SK-00001234") by discriminate.
  split; [exact N|].
  refine (proj1 (proj2 (proj2
    (C4_keys_apart 0 0 obs_air_example
       (message_with "SK-00001234" "obs_sky" "obs"
          (VList [VList [VInt 1600000000]]))
       "AR-00004424" "obs_air" "SK-00001234" "obs_sky" _ _ [] []
       eq_refl eq_refl eq_refl eq_refl eq_refl eq_refl eq_refl eq_refl
       N _ _))) "battery" "battery"); reflexivity.
Defined.

(** ** The field tables *)

Lemma nodupb_sound (l : list string) : nodupb l = true -> NoDup l.
Proof.
  induction l as [|x l IH]; simpl; [constructor|].
  intros H. apply andb_true_iff in H as [N H]. constructor; [|now apply IH].
  intros I. apply negb_true_iff in N.
  assert (T : existsb (String.eqb x) l = true).
  { apply existsb_exists. exists x. split; [exact I | apply String.eqb_refl]. }
  congruence.
Qed.

(** A roll-up type has a field table, and no name occurs twice in it. *)
Lemma rollup_fields (ty : string) :
  in_tuple ty ["obs_air"; "obs_sky"; "obs_st"] = true ->
  exists names, dict_get ty fields = Some names /\ NoDup names.
Proof.
  unfold in_tuple. cbn [existsb].
  destruct (String.eqb_spec ty "obs_air") as [->|_];
    [eexists; split; [reflexivity | apply nodupb_sound; reflexivity]|].
  destruct (String.eqb_spec ty "obs_sky") as [->|_];
    [eexists; split; [reflexivity | apply nodupb_sound; reflexivity]|].
  destruct (String.eqb_spec ty "obs_st") as [->|_];
    [eexists; split; [reflexivity | apply nodupb_sound; reflexivity]|].
  discriminate.
Qed.

(** A roll-up type's field table starts with [time_epoch]. *)
Lemma rollup_fields_head (ty : string) :
  in_tuple ty ["obs_air"; "obs_sky"; "obs_st"] = true ->
  exists others,
    dict_get ty fields = Some ("time_epoch" :: others) /\
    NoDup ("time_epoch" :: others).
Proof.
  unfold in_tuple. cbn [existsb].
  destruct (String.eqb_spec ty "obs_air") as [->|_];
    [eexists; split; [reflexivity | apply nodupb_sound; reflexivity]|].
  destruct (String.eqb_spec ty "obs_sky") as [->|_];
    [eexists; split; [reflexivity | apply nodupb_sound; reflexivity]|].
  destruct (String.eqb_spec ty "obs_st") as [->|_];
    [eexists; split; [reflexivity | apply nodupb_sound; reflexivity]|].
  discriminate.
Qed.

Lemma filter_all {A} (P : A -> bool) (l : list A) :
  (forall x, In x l -> P x = true) -> filter P l = l.
Proof.
  induction l as [|x l IH]; intros H; simpl; [reflexivity|].
  rewrite (H x (or_introl eq_refl)). f_equal.
  apply IH. intros y I. apply H. now right.
Qed.

(** A roll-up message with [serial_number], [type] and the non-empty [obs]
    array [[[]]]: flattening raises [IndexError] at [pkt['obs'][0][0]],
    the unguarded read of element 0. *)
Lemma rollup_empty_first_row_raises :
  rollup_well_formed
    (message_with "AR-00004424" "obs_air" "obs" (VList [VList []])) /\
  parseUDPPacket 0
    (message_with "AR-00004424" "obs_air" "obs" (VList [VList []]))
  = (inl IndexError, []).
Proof.
  split; [|reflexivity].
  exists "AR-00004424", "obs_air", (VList []), []. repeat split; reflexivity.
Qed.

(** C3 (counterexample).  For the [obs_air] message of the scenario the
    field table and [obs[0]] both have eight entries, so the minimum of the
    two lengths is 8; the zip writes eight pairs, of which the first is the
    timestamp under [time_epoch.<label>], and the positional fields other
    than the timestamp that the record holds are seven. *)
Lemma C3_count_counterexample :
  rollup_well_formed obs_air_example /\
  exists names obs0 rec,
    dict_get "obs_air" fields = Some names /\
    dict_get "obs" obs_air_example = Some (VList [VList obs0]) /\
    parseUDPPacket 0 obs_air_example = (inr rec, []) /\
    Nat.min (length names) (length obs0) = 8 /\
    length (filter (fun kv => negb (String.eqb (fst kv) "time_epoch"))
              (combine names obs0)) = 7 /\
    length (filter
              (fun f =>
                 dict_in (composite_key f (label_of "AR-00004424" "obs_air"))
                   rec) (non_timestamp names)) = 7.
Proof.
  split.
  - do 4 eexists. repeat split; reflexivity.
  - do 3 eexists. repeat split; reflexivity.
Qed.

(** C3 (amended).  For a roll-up message whose [obs[0]] is an array with at
    least the timestamp, flattening returns a record and logs nothing.
    With [names] the field table of the type and [t :: vs] the array: the
    zip writes [min (length names) (length (t :: vs))] pairs, the first of
    them the timestamp, so the pairs other than the timestamp are one less;
    each pair [(f, v)] is found under the composite key of [f];
    [time_epoch] holds [t]; a name past the end of the array holds only what
    the message itself has under that top-level key, so nothing when the
    message has no such key; and when no name of the table is a top-level
    key of the message, the names of the table other than [time_epoch]
    that are present in the record are one less than that minimum. *)
Theorem C3_rollup_zip_min (now : Z) (pkt : dict value) (sn ty : string)
    (t : value) (vs rest : list value) :
  dict_get "serial_number" pkt = Some (VStr sn) ->
  dict_get "type" pkt = Some (VStr ty) ->
  in_tuple ty ["obs_air"; "obs_sky"; "obs_st"] = true ->
  dict_get "obs" pkt = Some (VList (VList (t :: vs) :: rest)) ->
  exists names rec,
    dict_get ty fields = Some names /\
    parseUDPPacket now pkt = (inr rec, []) /\
    length (combine names (t :: vs))
      = Nat.min (length names) (length (t :: vs)) /\
    length (filter (fun kv => negb (String.eqb (fst kv) "time_epoch"))
              (combine names (t :: vs)))
      = Nat.min (length names) (length (t :: vs)) - 1 /\
    (forall f v, In (f, v) (combine names (t :: vs)) ->
       dict_get (composite_key f (label_of sn ty)) rec = Some v) /\
    dict_get "time_epoch" rec = Some t /\
    (forall f, In f (skipn (length (t :: vs)) names) ->
       dict_get (composite_key f (label_of sn ty)) rec = dict_get f pkt) /\
    ((forall f, In f names -> dict_get f pkt = None) ->
     length (filter (fun f => dict_in (composite_key f (label_of sn ty)) rec)
               (non_timestamp names))
       = Nat.min (length names) (length (t :: vs)) - 1).
Proof.
  intros Hsn Hty Hroll Hobs.
  destruct (rollup_fields_head ty Hroll) as (others & Hnames & ND).
  set (names := "time_epoch" :: others) in *.
  set (label := label_of sn ty).
  set (raw := fold_left (raw_step pkt label) (dict_keys pkt) []).
  set (rec := fold_left (zip_step label) (combine names (t :: vs))
                (dict_set "time_epoch" t raw)).
  assert (P : parseUDPPacket now pkt = (inr rec, [])).
  { rewrite (parseUDPPacket_dispatch _ pkt sn ty Hsn Hty).
    unfold dispatch. rewrite Hroll.
    repeat (rewrite bind_ret_l || rewrite (getitem_Some _ _ _ Hobs)
            || rewrite (getitem_Some _ _ _ Hnames)
            || cbn [subscript0 iter]).
    apply store_zip_fold. }
  assert (Paired : forall f v, In (f, v) (combine names (t :: vs)) ->
            dict_get (composite_key f label) rec = Some v).
  { intros f v I. apply zip_fold_get_in; [|exact I].
    now apply combine_fst_NoDup. }
  assert (Past : forall f, In f (skipn (length (t :: vs)) names) ->
            dict_get (composite_key f label) rec = dict_get f pkt).
  { intros f I. unfold rec, composite_key.
    rewrite zip_fold_get_notin by (now apply skipn_not_combined).
    rewrite dict_get_set_other
      by (intros E; symmetry in E; now apply time_epoch_not_composite in E).
    apply raw_get. }
  assert (Others : forall f, In f others ->
            negb (String.eqb f "time_epoch") = true).
  { intros f I. apply negb_true_iff, String.eqb_neq. intros ->.
    inversion ND as [|? ? NI _]; subst. contradiction. }
  assert (Min : Nat.min (length names) (length (t :: vs)) - 1
                = Nat.min (length others) (length vs))
    by (unfold names; simpl; lia).
  exists names, rec. split; [exact Hnames|]. split; [exact P|].
  split; [apply length_combine|]. split; [|split; [exact Paired|split; [|split; [exact Past|]]]].
  - rewrite Min. unfold names. cbn [combine filter fst String.eqb].
    change (String.eqb "time_epoch" "time_epoch") with true. cbn [negb].
    rewrite filter_all; [apply length_combine|].
    intros [f v] I. cbn [fst]. apply Others. eapply in_combine_l. exact I.
  - unfold rec. rewrite zip_fold_get_other.
    + apply dict_get_set_same.
    + intros f _. apply time_epoch_not_composite.
  - intros Hnone. rewrite Min. unfold non_timestamp, names.
    cbn [filter]. change (String.eqb "time_epoch" "time_epoch") with true.
    cbn [negb]. rewrite (filter_all _ others Others).
    apply (count_paired _ others vs).
    + intros f v I. rewrite dict_in_get, (Paired f v); [reflexivity|].
      unfold names. cbn [combine]. now right.
    + intros f I. rewrite dict_in_get, (Past f I), Hnone; [reflexivity|].
      unfold names. right. eapply skipn_In. exact I.
Qed.

Lemma C3_rollup_zip_min_witness :
  in_tuple "obs_air" ["obs_air"; "obs_sky"; "obs_st"] = true /\
  exists names rec,
    dict_get "obs_air" fields = Some names /\
    parseUDPPacket 0
      (message_with "AR-00004424" "obs_air" "obs"
         (VList [VList [VInt 1600000000; VInt 1015]]))
    = (inr rec, []) /\
    dict_get "station_pressure.AR_00004424.obs_air" rec = Some (VInt 1015) /\
    dict_get "air_temperature.AR_00004424.obs_air" rec = None /\
    length (filter
              (fun f =>
                 dict_in (composite_key f (label_of "AR-00004424" "obs_air"))
                   rec) (non_timestamp names)) = 1.
Proof.
  split; [reflexivity|].
  destruct (C3_rollup_zip_min 0
              (message_with "AR-00004424" "obs_air" "obs"
                 (VList [VList [VInt 1600000000; VInt 1015]]))
              "AR-00004424" "obs_air" (VInt 1600000000) [VInt 1015] []
              eq_refl eq_refl eq_refl eq_refl)
    as (names & rec & Hn & P & _ & _ & Paired & _ & Past & Count).
  exists names, rec. split; [exact Hn|]. split; [exact P|].
  cbn in Hn. injection Hn as <-. repeat split.
  - apply (Paired "station_pressure" (VInt 1015)). simpl. right. now left.
  - apply (Past "air_temperature"). simpl. now left.
  - apply Count. intros f I. simpl in I.
    repeat (destruct I as [<-|I]; [reflexivity|]). destruct I.
Defined.

(** * Further properties of the driver *)

(** ** Computations that log nothing *)

Lemma silent_ret {A} (a : A) : silent (ret a).
Proof. reflexivity. Qed.

Lemma silent_raise {A} (e : exn) : silent (@raise A e).
Proof. reflexivity. Qed.

Lemma silent_bind {A B} (m : M A) (f : A -> M B) :
  silent m -> (forall a, silent (f a)) -> silent (bind m f).
Proof.
  unfold silent. destruct m as [[e|a] l]; simpl; intros -> Hf; [reflexivity|].
  specialize (Hf a). destruct (f a) as [r l']. simpl in *. now subst.
Qed.

Lemma silent_getitem {V} (k : string) (d : dict V) : silent (getitem k d).
Proof. unfold getitem. now destruct (dict_get k d). Qed.

Lemma silent_subscript0 (v : value) : silent (subscript0 v).
Proof. now destruct v as [| | | |[|c s]|[|x r]|]. Qed.

Lemma silent_iter (v : value) : silent (iter v).
Proof. now destruct v. Qed.

Lemma silent_expect_str (e : exn) (v : value) : silent (expect_str e v).
Proof. now destruct v. Qed.

Lemma silent_store_zip (names : list string) (values : list value)
    (label : string) (p : dict value) :
  silent (store_zip names values label p).
Proof. now rewrite store_zip_fold. Qed.

(** ** The branches of the dispatch, taken apart *)

(** The first value that iterating gives is the value at index 0. *)
Lemma subscript0_iter_head (a t : value) (values : list value) :
  subscript0 a = ret t -> iter a = ret values ->
  exists rest, values = t :: rest.
Proof.
  intros S I. apply subscript0_inr in S as [_ [[r ->]|(c & s & -> & ->)]];
    cbn in I; injection I as <-; eexists; reflexivity.
Qed.

Lemma zip_branch_inv (label : string) (names : list string) (a t : value)
    (p rec : dict value) (log : list logrec) :
  (values <- iter a ;;
   store_zip names values label (dict_set "time_epoch" t p)) = (inr rec, log) ->
  exists values,
    iter a = ret values /\ log = [] /\
    rec = fold_left (zip_step label) (combine names values)
            (dict_set "time_epoch" t p).
Proof.
  intros H. bind_step H values Hit.
  destruct (iter_inr _ _ _ Hit) as [-> _].
  rewrite store_zip_fold in H. apply ret_inr in H as [<- ->].
  exists values. repeat split; trivial.
Qed.

(** A type outside the three positional families has no field table. *)
Lemma no_field_table (ty : string) :
  in_tuple ty ["obs_air"; "obs_sky"; "obs_st"] = false ->
  String.eqb ty "rapid_wind" = false ->
  in_tuple ty ["evt_strike"; "evt_precip"] = false ->
  dict_get ty fields = None.
Proof.
  unfold in_tuple. cbn [existsb]. intros R W E.
  apply orb_false_iff in R as [R1 R]. apply orb_false_iff in R as [R2 R].
  apply orb_false_iff in R as [R3 _].
  apply orb_false_iff in E as [E1 E]. apply orb_false_iff in E as [E2 _].
  unfold fields. cbn [dict_get]. now rewrite R1, R2, W, E2, E1, R3.
Qed.

(** Every field table starts with [time_epoch] and names no field twice. *)
Lemma fields_shape (ty : string) (names : list string) :
  dict_get ty fields = Some names ->
  (exists rest, names = "time_epoch" :: rest) /\ NoDup names.
Proof.
  unfold fields. cbn [dict_get].
  repeat (destruct (String.eqb ty _);
          [intros [= <-]; split;
           [eexists; reflexivity | apply nodupb_sound; reflexivity]|]).
  discriminate.
Qed.

(** What a returning dispatch did: the zip of a positional type, the bare
    timestamp of a status or extension type, or nothing for a type it does
    not know. *)
Lemma dispatch_inv (now : Z) (pkt : dict value) (ty label : string)
    (p rec : dict value) (log : list logrec) :
  dispatch now pkt ty label p = (inr rec, log) ->
  (exists names a t values,
     dict_get ty fields = Some names /\
     subscript0 a = ret t /\ iter a = ret values /\ log = [] /\
     rec = fold_left (zip_step label) (combine names values)
             (dict_set "time_epoch" t p)) \/
  (dict_get ty fields = None /\
   exists t, log = [] /\ rec = dict_set "time_epoch" t p) \/
  (dict_get ty fields = None /\
   log = [(ERROR, Unknown_packet_type ty)] /\ rec = p).
Proof.
  unfold dispatch. intros H.
  destruct (in_tuple ty ["obs_air"; "obs_sky"; "obs_st"]) eqn:R.
  { bind_step H obs G. apply getitem_inr in G as [G ->].
    bind_step H obs0 S0. destruct (subscript0_inr _ _ _ S0) as [-> _].
    bind_step H t St. destruct (subscript0_inr _ _ _ St) as [-> _].
    bind_step H names Gn. apply getitem_inr in Gn as [Gn ->].
    bind_step H obs' G'. apply getitem_inr in G' as [G' ->].
    rewrite G in G'. injection G' as <-.
    bind_step H obs0' S0'. destruct (subscript0_inr _ _ _ S0') as [-> _].
    rewrite S0 in S0'. injection S0' as <-.
    apply zip_branch_inv in H as (values & It & -> & ->).
    left. now exists names, obs0, t, values. }
  destruct (String.eqb ty "rapid_wind") eqn:W.
  { apply String.eqb_eq in W. subst ty.
    bind_step H ob G. apply getitem_inr in G as [G ->].
    bind_step H t St. destruct (subscript0_inr _ _ _ St) as [-> _].
    bind_step H names Gn. apply getitem_inr in Gn as [Gn ->].
    bind_step H ob' G'. apply getitem_inr in G' as [G' ->].
    rewrite G in G'. injection G' as <-.
    apply zip_branch_inv in H as (values & It & -> & ->).
    left. now exists names, ob, t, values. }
  destruct (in_tuple ty ["evt_strike"; "evt_precip"]) eqn:E.
  { bind_step H evt G. apply getitem_inr in G as [G ->].
    bind_step H t St. destruct (subscript0_inr _ _ _ St) as [-> _].
    bind_step H names Gn. apply getitem_inr in Gn as [Gn ->].
    bind_step H evt' G'. apply getitem_inr in G' as [G' ->].
    rewrite G in G'. injection G' as <-.
    apply zip_branch_inv in H as (values & It & -> & ->).
    left. now exists names, evt, t, values. }
  pose proof (no_field_table ty R W E) as NT.
  assert (Status :
    (t <- getitem "timestamp" pkt ;; ret (dict_set "time_epoch" t p))
      = (inr rec, log) ->
    exists t, log = [] /\ rec = dict_set "time_epoch" t p).
  { intros H'. bind_step H' t G. apply getitem_inr in G as [G ->].
    apply ret_inr in H' as [<- ->]. now exists t. }
  destruct (String.eqb ty "device_status"); [right; left; auto|].
  destruct (String.eqb ty "hub_status"); [right; left; auto|].
  destruct (String.eqb (substring 0 2 ty) "X_").
  { apply ret_inr in H as [<- ->]. right; left. split; [exact NT|].
    now exists (VInt now). }
  cbn in H. injection H as <- <-. right; right. now split.
Qed.

(** The raw-field copy writes composite keys only. *)
Lemma raw_no_time_epoch (pkt : dict value) (label : string) :
  dict_get "time_epoch"
    (fold_left (raw_step pkt label) (dict_keys pkt) []) = None.
Proof.
  apply dict_get_None. intros K.
  apply dict_get_keys in K as [v G]. apply dict_get_In in G.
  apply raw_fold_entries in G as [[]|(k0 & _ & E & _)].
  now apply time_epoch_not_composite in E.
Qed.

(** With both keys there, a record is returned only when both hold
    strings. *)
Lemma parseUDPPacket_strings (now : Z) (pkt rec : dict value)
    (log : list logrec) :
  dict_in "serial_number" pkt = true ->
  dict_in "type" pkt = true ->
  parseUDPPacket now pkt = (inr rec, log) ->
  exists sn ty, dict_get "serial_number" pkt = Some (VStr sn) /\
                dict_get "type" pkt = Some (VStr ty).
Proof.
  intros Isn Ity P. unfold parseUDPPacket in P. rewrite Isn, Ity in P.
  bind_step P snv G. apply getitem_inr in G as [Gsn ->].
  bind_step P sn E. destruct snv; try discriminate.
  apply ret_inr in E as [-> ->].
  bind_step P tyv G. apply getitem_inr in G as [Gty ->].
  bind_step P ty E. destruct tyv; try discriminate.
  apply ret_inr in E as [-> ->].
  now exists sn, ty.
Qed.

(** Every way [parseUDPPacket] returns. *)
Lemma parseUDPPacket_inv (now : Z) (pkt rec : dict value)
    (log : list logrec) :
  parseUDPPacket now pkt = (inr rec, log) ->
  ((dict_in "serial_number" pkt = false \/ dict_in "type" pkt = false) /\
   rec = [] /\ log = [(INFO, Corrupt_UDP_packet pkt)]) \/
  exists sn ty,
    dict_get "serial_number" pkt = Some (VStr sn) /\
    dict_get "type" pkt = Some (VStr ty) /\
    let label := label_of sn ty in
    let raw := fold_left (raw_step pkt label) (dict_keys pkt) [] in
    ((exists names a t values,
        dict_get ty fields = Some names /\
        subscript0 a = ret t /\ iter a = ret values /\ log = [] /\
        rec = fold_left (zip_step label) (combine names values)
                (dict_set "time_epoch" t raw)) \/
     (dict_get ty fields = None /\
      exists t, log = [] /\ rec = dict_set "time_epoch" t raw) \/
     (dict_get ty fields = None /\
      log = [(ERROR, Unknown_packet_type ty)] /\ rec = raw)).
Proof.
  intros P.
  destruct (dict_in "serial_number" pkt) eqn:Isn;
    [|left; rewrite parseUDPPacket_corrupt in P by (now left);
      injection P as <- <-; repeat split; now left].
  destruct (dict_in "type" pkt) eqn:Ity;
    [|left; rewrite parseUDPPacket_corrupt in P by (now right);
      injection P as <- <-; repeat split; now right].
  right.
  destruct (parseUDPPacket_strings _ _ _ _ Isn Ity P) as (sn & ty & Hsn & Hty).
  exists sn, ty. split; [exact Hsn|]. split; [exact Hty|].
  rewrite (parseUDPPacket_dispatch _ pkt sn ty Hsn Hty) in P.
  cbv zeta. exact (dispatch_inv _ _ _ _ _ _ _ P).
Qed.

(** ** What flattening logs *)

(** A computation that logs nothing, or one that returns. *)
Lemma quiet_or_returns_bind {A B} (m : M A) (f : A -> M B) :
  silent m ->
  (forall a, silent (f a) \/ exists b l, f a = (inr b, l)) ->
  silent (bind m f) \/ exists b l, bind m f = (inr b, l).
Proof.
  unfold silent. destruct m as [[e|a] l]; simpl; intros -> Hf; [now left|].
  destruct (Hf a) as [S|(b & l & E)].
  - left. destruct (f a) as [r l']. simpl in *. now subst.
  - right. rewrite E. now exists b, l.
Qed.

Ltac silence :=
  repeat first
    [ apply silent_ret | apply silent_raise | apply silent_getitem
    | apply silent_subscript0 | apply silent_iter | apply silent_expect_str
    | apply silent_store_zip
    | apply silent_bind; [|intros ?] ].

Lemma dispatch_quiet_or_returns (now : Z) (pkt : dict value)
    (ty label : string) (p : dict value) :
  silent (dispatch now pkt ty label p) \/
  exists rec l, dispatch now pkt ty label p = (inr rec, l).
Proof.
  unfold dispatch.
  destruct (in_tuple ty ["obs_air"; "obs_sky"; "obs_st"]); [left; silence|].
  destruct (String.eqb ty "rapid_wind"); [left; silence|].
  destruct (in_tuple ty ["evt_strike"; "evt_precip"]); [left; silence|].
  destruct (String.eqb ty "device_status"); [left; silence|].
  destruct (String.eqb ty "hub_status"); [left; silence|].
  destruct (String.eqb (substring 0 2 ty) "X_"); [left; silence|].
  right. now do 2 eexists.
Qed.

(** Either nothing is logged or a record is returned. *)
Lemma parseUDPPacket_quiet_or_returns (now : Z) (pkt : dict value) :
  silent (parseUDPPacket now pkt) \/
  exists rec l, parseUDPPacket now pkt = (inr rec, l).
Proof.
  unfold parseUDPPacket.
  destruct (dict_in "serial_number" pkt); [|right; now do 2 eexists].
  destruct (dict_in "type" pkt); [|right; now do 2 eexists].
  cbv zeta.
  apply quiet_or_returns_bind; [silence | intros snv].
  apply quiet_or_returns_bind; [silence | intros sn].
  apply quiet_or_returns_bind; [silence | intros tyv].
  apply quiet_or_returns_bind; [silence | intros ty].
  rewrite copy_raw_fold, bind_ret_l.
  apply dispatch_quiet_or_returns.
Qed.

(** When [parseUDPPacket] raises, it has logged nothing: the two log
    calls sit on paths that return. *)
Theorem parseUDPPacket_raises_silently (now : Z) (pkt : dict value)
    (e : exn) (log : list logrec) :
  parseUDPPacket now pkt = (inl e, log) -> log = [].
Proof.
  intros P.
  destruct (parseUDPPacket_quiet_or_returns now pkt) as [S|(rec & l & E)].
  - unfold silent in S. now rewrite P in S.
  - rewrite P in E. discriminate.
Qed.

Lemma parseUDPPacket_raises_silently_witness :
  parseUDPPacket 0 (bare_message "AR-00004424" "obs_air")
    = (inl KeyError, []) /\
  (@nil logrec) = [].
Proof.
  split; [reflexivity|].
  exact (parseUDPPacket_raises_silently 0
           (bare_message "AR-00004424" "obs_air") KeyError [] eq_refl).
Defined.

(** A returned Flattened Record has [time_epoch] exactly when nothing was
    logged: the record of a corrupt or unknown-type packet has none, every
    other record has one. *)
Theorem time_epoch_iff_nothing_logged (now : Z) (pkt rec : dict value)
    (log : list logrec) :
  parseUDPPacket now pkt = (inr rec, log) ->
  (dict_in "time_epoch" rec = true <-> log = []).
Proof.
  intros P. rewrite dict_in_get.
  apply parseUDPPacket_inv in P
    as [(_ & -> & ->)|(sn & ty & _ & _ & Cases)].
  - simpl. split; discriminate.
  - cbv zeta in Cases.
    destruct Cases as [(names & a & t & values & _ & _ & _ & -> & ->)
                      |[(_ & t & -> & ->)|(_ & -> & ->)]].
    + rewrite zip_fold_get_other, dict_get_set_same
        by (intros f _; apply time_epoch_not_composite).
      now split.
    + rewrite dict_get_set_same. now split.
    + rewrite raw_no_time_epoch. split; discriminate.
Qed.

Lemma time_epoch_iff_nothing_logged_witness :
  exists rec,
    parseUDPPacket 0 (bare_message "HB-00000001" "no_such_type")
      = (inr rec, [(ERROR, Unknown_packet_type "no_such_type")]) /\
    (dict_in "time_epoch" rec = true <->
     [(ERROR, Unknown_packet_type "no_such_type")] = []).
Proof.
  eexists. split; [reflexivity|].
  exact (time_epoch_iff_nothing_logged 0
           (bare_message "HB-00000001" "no_such_type") _ _ eq_refl).
Defined.

(** ** What a Flattened Record holds *)

(** For a type with a field table, the record holds the timestamp twice,
    under the bare key [time_epoch] and under the composite key of the
    table's first field, with the same value. *)
Theorem timestamp_under_both_keys (now : Z) (pkt rec : dict value)
    (log : list logrec) (sn ty : string) :
  dict_get "serial_number" pkt = Some (VStr sn) ->
  dict_get "type" pkt = Some (VStr ty) ->
  dict_in ty fields = true ->
  parseUDPPacket now pkt = (inr rec, log) ->
  exists t,
    dict_get "time_epoch" rec = Some t /\
    dict_get (composite_key "time_epoch" (label_of sn ty)) rec = Some t.
Proof.
  intros Hsn Hty Tab P. rewrite dict_in_get in Tab.
  rewrite (parseUDPPacket_dispatch _ pkt sn ty Hsn Hty) in P.
  apply dispatch_inv in P
    as [(names & a & t & values & Hn & St & It & _ & ->)
       |[(NT & _)|(NT & _)]];
    try (rewrite NT in Tab; discriminate).
  exists t. split.
  - rewrite zip_fold_get_other, dict_get_set_same
      by (intros f _; apply time_epoch_not_composite).
    reflexivity.
  - destruct (fields_shape _ _ Hn) as [[rest ->] ND].
    destruct (subscript0_iter_head _ _ _ St It) as [vs ->].
    apply zip_fold_get_in; [now apply combine_fst_NoDup | now left].
Qed.

Lemma timestamp_under_both_keys_witness :
  exists rec t,
    parseUDPPacket 0
      (message_with "SK-00001234" "rapid_wind" "ob"
         (VList [VInt 1600000005; VInt 3; VInt 270])) = (inr rec, []) /\
    dict_get "time_epoch" rec = Some t /\
    dict_get "time_epoch.SK_00001234.rapid_wind" rec = Some t.
Proof.
  destruct (timestamp_under_both_keys 0
              (message_with "SK-00001234" "rapid_wind" "ob"
                 (VList [VInt 1600000005; VInt 3; VInt 270]))
              _ [] "SK-00001234" "rapid_wind" eq_refl eq_refl eq_refl eq_refl)
    as (t & T1 & T2).
  eexists. exists t. split; [reflexivity|]. split; [exact T1 | exact T2].
Defined.

Lemma existsb_eqb_false (x : string) (l : list string) :
  existsb (String.eqb x) l = false -> ~ In x l.
Proof.
  intros F I.
  assert (T : existsb (String.eqb x) l = true).
  { apply existsb_exists. exists x. split; [exact I | apply String.eqb_refl]. }
  congruence.
Qed.

(** No field table names [serial_number] or [type]. *)
Lemma fields_not_identity (ty : string) (names : list string) :
  dict_get ty fields = Some names ->
  ~ In "serial_number" names /\ ~ In "type" names.
Proof.
  unfold fields. cbn [dict_get].
  repeat (destruct (String.eqb ty _);
          [intros [= <-]; split; apply existsb_eqb_false; reflexivity|]).
  discriminate.
Qed.

(** The raw-field copy survives the dispatch: under the composite key of a
    name that the type's field table does not list, a returned record holds
    what the message holds under that name as a top-level key, and nothing
    when the message has no such key.  In particular the record always
    carries the message's own [serial_number] and [type]. *)
Theorem raw_fields_kept (now : Z) (pkt rec : dict value) (log : list logrec)
    (sn ty : string) :
  dict_get "serial_number" pkt = Some (VStr sn) ->
  dict_get "type" pkt = Some (VStr ty) ->
  parseUDPPacket now pkt = (inr rec, log) ->
  dict_get (composite_key "serial_number" (label_of sn ty)) rec
    = Some (VStr sn) /\
  dict_get (composite_key "type" (label_of sn ty)) rec = Some (VStr ty) /\
  forall k0,
    (forall names, dict_get ty fields = Some names -> ~ In k0 names) ->
    dict_get (composite_key k0 (label_of sn ty)) rec = dict_get k0 pkt.
Proof.
  intros Hsn Hty P.
  assert (Kept : forall k0,
            (forall names, dict_get ty fields = Some names -> ~ In k0 names) ->
            dict_get (composite_key k0 (label_of sn ty)) rec = dict_get k0 pkt).
  { intros k0 Hk0. unfold composite_key.
    assert (N : k0 ++ "." ++ label_of sn ty <> "time_epoch")
      by (intros E; symmetry in E; now apply time_epoch_not_composite in E).
    rewrite (parseUDPPacket_dispatch _ pkt sn ty Hsn Hty) in P.
    apply dispatch_inv in P
      as [(names & a & t & values & Hn & _ & _ & _ & ->)
         |[(_ & t & _ & ->)|(_ & _ & ->)]].
    - rewrite zip_fold_get_notin.
      + rewrite (dict_get_set_other _ _ _ _ N). apply raw_get.
      + intros I. apply in_map_iff in I as ([f v] & E & I). simpl in E; subst.
        apply in_combine_l in I. exact (Hk0 names Hn I).
    - rewrite (dict_get_set_other _ _ _ _ N). apply raw_get.
    - apply raw_get. }
  split; [|split; [|exact Kept]].
  - rewrite Kept; [exact Hsn|].
    intros names Hn. now destruct (fields_not_identity _ _ Hn).
  - rewrite Kept; [exact Hty|].
    intros names Hn. now destruct (fields_not_identity _ _ Hn).
Qed.

Lemma raw_fields_kept_witness :
  exists rec,
    parseUDPPacket 0
      (message_with "HB-00000001" "hub_status" "timestamp" (VInt 1600000000))
    = (inr rec, []) /\
    dict_get "serial_number.HB_00000001.hub_status" rec
      = Some (VStr "HB-00000001") /\
    dict_get "timestamp.HB_00000001.hub_status" rec = Some (VInt 1600000000) /\
    dict_get "rssi.HB_00000001.hub_status" rec = None.
Proof.
  destruct (raw_fields_kept 0
              (message_with "HB-00000001" "hub_status" "timestamp"
                 (VInt 1600000000))
              _ [] "HB-00000001" "hub_status" eq_refl eq_refl eq_refl)
    as (S & _ & Kept).
  eexists. split; [reflexivity|]. split; [exact S|]. split.
  - apply (Kept "timestamp"). intros names E. discriminate E.
  - apply (Kept "rssi"). intros names E. discriminate E.
Defined.

(** A Flattened Record has no key but [time_epoch], the composite keys of
    the message's top-level keys and the composite keys of the fields of
    the type's table: what a positional array holds beyond the table is
    dropped. *)
Theorem flattened_keys (now : Z) (pkt rec : dict value) (log : list logrec)
    (sn ty k : string) (v : value) :
  dict_get "serial_number" pkt = Some (VStr sn) ->
  dict_get "type" pkt = Some (VStr ty) ->
  parseUDPPacket now pkt = (inr rec, log) ->
  dict_get k rec = Some v ->
  k = "time_epoch" \/
  (exists k0, In k0 (dict_keys pkt) /\ k = composite_key k0 (label_of sn ty)) \/
  (exists names f, dict_get ty fields = Some names /\ In f names /\
                   k = composite_key f (label_of sn ty)).
Proof.
  intros Hsn Hty P G. apply dict_get_In in G. unfold composite_key.
  assert (Base : forall t,
            In (k, v) (dict_set "time_epoch" t
                         (fold_left (raw_step pkt (label_of sn ty))
                            (dict_keys pkt) [])) ->
            k = "time_epoch" \/
            exists k0, In k0 (dict_keys pkt) /\ k = k0 ++ "." ++ label_of sn ty).
  { intros t I. apply dict_set_In in I as [[-> _]|I]; [now left|].
    apply raw_fold_entries in I as [[]|(k0 & I0 & E & _)].
    right. now exists k0. }
  rewrite (parseUDPPacket_dispatch _ pkt sn ty Hsn Hty) in P.
  apply dispatch_inv in P
    as [(names & a & t & values & Hn & _ & _ & _ & ->)
       |[(_ & t & _ & ->)|(_ & _ & ->)]].
  - apply zip_fold_entries in G as [I|(f & -> & I)].
    + destruct (Base t I) as [L|R]; [now left | right; now left].
    + right; right. exists names, f. repeat split; trivial.
      eapply in_combine_l. exact I.
  - destruct (Base t G) as [L|R]; [now left | right; now left].
  - apply raw_fold_entries in G as [[]|(k0 & I0 & E & _)].
    right; left. now exists k0.
Qed.

Lemma flattened_keys_witness :
  exists rec,
    parseUDPPacket 0
      (message_with "SK-00001234" "rapid_wind" "ob"
         (VList [VInt 1600000005; VInt 3; VInt 270; VInt 99])) = (inr rec, []) /\
    dict_get "wind_direction.SK_00001234.rapid_wind" rec = Some (VInt 270) /\
    ("wind_direction.SK_00001234.rapid_wind" = "time_epoch" \/
     (exists k0,
        In k0 (dict_keys
                 (message_with "SK-00001234" "rapid_wind" "ob"
                    (VList [VInt 1600000005; VInt 3; VInt 270; VInt 99]))) /\
        "wind_direction.SK_00001234.rapid_wind"
        = composite_key k0 (label_of "SK-00001234" "rapid_wind")) \/
     (exists names f,
        dict_get "rapid_wind" fields = Some names /\ In f names /\
        "wind_direction.SK_00001234.rapid_wind"
        = composite_key f (label_of "SK-00001234" "rapid_wind"))).
Proof.
  eexists. split; [reflexivity|]. split; [reflexivity|].
  exact (flattened_keys 0
           (message_with "SK-00001234" "rapid_wind" "ob"
              (VList [VInt 1600000005; VInt 3; VInt 270; VInt 99]))
           _ [] "SK-00001234" "rapid_wind"
           "wind_direction.SK_00001234.rapid_wind" (VInt 270)
           eq_refl eq_refl eq_refl eq_refl).
Defined.

(** ** The branches of the dispatch, run forward *)

Lemma zip_branch_run (label : string) (names : list string) (a t : value)
    (values : list value) (p : dict value) :
  iter a = ret values ->
  (values <- iter a ;;
   store_zip names values label (dict_set "time_epoch" t p))
  = ret (fold_left (zip_step label) (combine names values)
           (dict_set "time_epoch" t p)).
Proof. intros ->. rewrite bind_ret_l. apply store_zip_fold. Qed.

Lemma dispatch_rapid_wind (now : Z) (pkt : dict value) (label : string)
    (p : dict value) (a t : value) (values : list value) :
  dict_get "ob" pkt = Some a ->
  subscript0 a = ret t -> iter a = ret values ->
  dispatch now pkt "rapid_wind" label p
  = ret (fold_left (zip_step label)
           (combine ["time_epoch"; "wind_speed"; "wind_direction"] values)
           (dict_set "time_epoch" t p)).
Proof.
  intros G S I. unfold dispatch.
  change (in_tuple "rapid_wind" ["obs_air"; "obs_sky"; "obs_st"]) with false.
  change (String.eqb "rapid_wind" "rapid_wind") with true. cbv iota.
  rewrite (getitem_Some _ _ _ G), !bind_ret_l, S, bind_ret_l.
  rewrite (getitem_Some "rapid_wind" fields _ eq_refl), !bind_ret_l.
  now apply zip_branch_run.
Qed.

Lemma dispatch_event (now : Z) (pkt : dict value) (ty label : string)
    (p : dict value) (names : list string) (a t : value)
    (values : list value) :
  ty = "evt_strike" \/ ty = "evt_precip" ->
  dict_get ty fields = Some names ->
  dict_get "evt" pkt = Some a ->
  subscript0 a = ret t -> iter a = ret values ->
  dispatch now pkt ty label p
  = ret (fold_left (zip_step label) (combine names values)
           (dict_set "time_epoch" t p)).
Proof.
  intros T Hn G S I.
  assert (C : in_tuple ty ["obs_air"; "obs_sky"; "obs_st"] = false /\
              String.eqb ty "rapid_wind" = false /\
              in_tuple ty ["evt_strike"; "evt_precip"] = true)
    by (destruct T as [->| ->]; repeat split; reflexivity).
  destruct C as (C1 & C2 & C3).
  unfold dispatch. rewrite C1, C2, C3.
  rewrite (getitem_Some _ _ _ G), !bind_ret_l, S, bind_ret_l.
  rewrite (getitem_Some _ _ _ Hn), !bind_ret_l.
  now apply zip_branch_run.
Qed.

Lemma dispatch_status (now : Z) (pkt : dict value) (ty label : string)
    (p : dict value) :
  ty = "device_status" \/ ty = "hub_status" ->
  dispatch now pkt ty label p
  = (t <- getitem "timestamp" pkt ;; ret (dict_set "time_epoch" t p)).
Proof. intros [->| ->]; reflexivity. Qed.

(** A type with no field table runs none of the three zips. *)
Lemma no_field_table_inv (ty : string) :
  dict_get ty fields = None ->
  in_tuple ty ["obs_air"; "obs_sky"; "obs_st"] = false /\
  String.eqb ty "rapid_wind" = false /\
  in_tuple ty ["evt_strike"; "evt_precip"] = false.
Proof.
  unfold fields, in_tuple. cbn [dict_get existsb].
  destruct (String.eqb ty "obs_air"); [discriminate|].
  destruct (String.eqb ty "obs_sky"); [discriminate|].
  destruct (String.eqb ty "rapid_wind"); [discriminate|].
  destruct (String.eqb ty "evt_precip"); [discriminate|].
  destruct (String.eqb ty "evt_strike"); [discriminate|].
  destruct (String.eqb ty "obs_st"); [discriminate|].
  now repeat split.
Qed.

Lemma dispatch_unknown (now : Z) (pkt : dict value) (ty label : string)
    (p : dict value) :
  dict_get ty fields = None ->
  String.eqb ty "device_status" = false ->
  String.eqb ty "hub_status" = false ->
  String.eqb (substring 0 2 ty) "X_" = false ->
  dispatch now pkt ty label p = (inr p, [(ERROR, Unknown_packet_type ty)]).
Proof.
  intros NT D H X. destruct (no_field_table_inv ty NT) as (C1 & C2 & C3).
  unfold dispatch. now rewrite C1, C2, C3, D, H, X.
Qed.

(** The first two fields after the timestamp, as [rapid_wind] and
    [evt_strike] have them: the positional value when the array reaches
    that far, and the raw copy of a top-level key of that name when it does
    not. *)
Lemma zip3_lookups (pkt : dict value) (label f1 f2 : string) (t : value)
    (vs : list value) :
  nodupb ["time_epoch"; f1; f2] = true ->
  let rec := fold_left (zip_step label)
               (combine ["time_epoch"; f1; f2] (t :: vs))
               (dict_set "time_epoch" t
                  (fold_left (raw_step pkt label) (dict_keys pkt) [])) in
  dict_get "time_epoch" rec = Some t /\
  dict_get ("time_epoch" ++ "." ++ label) rec = Some t /\
  dict_get (f1 ++ "." ++ label) rec
    = match vs with v :: _ => Some v | [] => dict_get f1 pkt end /\
  dict_get (f2 ++ "." ++ label) rec
    = match vs with _ :: v :: _ => Some v | _ => dict_get f2 pkt end.
Proof.
  intros ND rec. apply nodupb_sound in ND.
  assert (NDc : NoDup (map fst (combine ["time_epoch"; f1; f2] (t :: vs))))
    by (now apply combine_fst_NoDup).
  assert (Past : forall f,
            ~ In f (map fst (combine ["time_epoch"; f1; f2] (t :: vs))) ->
            dict_get (f ++ "." ++ label) rec = dict_get f pkt).
  { intros f NI. unfold rec. rewrite zip_fold_get_notin by exact NI.
    rewrite dict_get_set_other
      by (intros E; symmetry in E; now apply time_epoch_not_composite in E).
    apply raw_get. }
  assert (D1 : f1 <> "time_epoch" /\ f2 <> "time_epoch" /\ f2 <> f1).
  { inversion ND as [|? ? N1 ND1]; subst. inversion ND1 as [|? ? N2 _]; subst.
    simpl in N1, N2. repeat split; intuition congruence. }
  destruct D1 as (D1 & D2 & D3).
  split; [|split; [|split]].
  - unfold rec. rewrite zip_fold_get_other, dict_get_set_same
      by (intros f _; apply time_epoch_not_composite).
    reflexivity.
  - apply zip_fold_get_in; [exact NDc | now left].
  - destruct vs as [|v vs].
    + apply Past. simpl. intuition.
    + apply zip_fold_get_in; [exact NDc | right; now left].
  - destruct vs as [|v1 [|v2 vs]].
    + apply Past. simpl. intuition.
    + apply Past. simpl. intuition.
    + apply zip_fold_get_in; [exact NDc | right; right; now left].
Qed.

(** A name that is no alias keeps what the output started with. *)
Lemma alias_fold_other (pkt : dict value) (sm : dict string)
    (p : dict value) (w : string) :
  ~ In w (dict_keys sm) ->
  dict_get w (fold_left (alias_step pkt) sm p) = dict_get w p.
Proof.
  revert p; induction sm as [|[w0 l0] sm IH]; intros p NI; cbn [fold_left];
    [reflexivity|].
  rewrite IH by (intros I; apply NI; now right).
  unfold alias_step. cbn [fst snd].
  destruct (dict_get (normalize l0) pkt); [|reflexivity].
  apply dict_get_set_other. intros ->. apply NI. now left.
Qed.

(** ** Each packet type, flattened *)

(** A [rapid_wind] message whose [ob] array holds at least the timestamp
    flattens without logging: [time_epoch] and [time_epoch.<label>] hold
    [ob[0]], [wind_speed.<label>] holds [ob[1]] and
    [wind_direction.<label>] holds [ob[2]]; where the array is too short
    the key holds only the raw copy of a top-level key of that name, if the
    message has one. *)
Theorem rapid_wind_flattening (now : Z) (pkt : dict value) (sn : string)
    (t : value) (vs : list value) :
  dict_get "serial_number" pkt = Some (VStr sn) ->
  dict_get "type" pkt = Some (VStr "rapid_wind") ->
  dict_get "ob" pkt = Some (VList (t :: vs)) ->
  exists rec,
    parseUDPPacket now pkt = (inr rec, []) /\
    dict_get "time_epoch" rec = Some t /\
    dict_get (composite_key "time_epoch" (label_of sn "rapid_wind")) rec
      = Some t /\
    dict_get (composite_key "wind_speed" (label_of sn "rapid_wind")) rec
      = match vs with v :: _ => Some v | [] => dict_get "wind_speed" pkt end /\
    dict_get (composite_key "wind_direction" (label_of sn "rapid_wind")) rec
      = match vs with
        | _ :: v :: _ => Some v
        | _ => dict_get "wind_direction" pkt
        end.
Proof.
  intros Hsn Hty Hob. eexists. split.
  - rewrite (parseUDPPacket_dispatch _ pkt sn "rapid_wind" Hsn Hty).
    apply (dispatch_rapid_wind _ _ _ _ _ t (t :: vs) Hob); reflexivity.
  - apply (zip3_lookups pkt (label_of sn "rapid_wind")
             "wind_speed" "wind_direction" t vs eq_refl).
Qed.

Lemma rapid_wind_flattening_witness :
  exists rec,
    parseUDPPacket 0
      (message_with "SK-00001234" "rapid_wind" "ob"
         (VList [VInt 1600000005; VInt 3])) = (inr rec, []) /\
    dict_get "time_epoch" rec = Some (VInt 1600000005) /\
    dict_get "wind_speed.SK_00001234.rapid_wind" rec = Some (VInt 3) /\
    dict_get "wind_direction.SK_00001234.rapid_wind" rec = None.
Proof.
  destruct (rapid_wind_flattening 0
              (message_with "SK-00001234" "rapid_wind" "ob"
                 (VList [VInt 1600000005; VInt 3]))
              "SK-00001234" (VInt 1600000005) [VInt 3]
              eq_refl eq_refl eq_refl)
    as (rec & P & T & _ & S & D).
  exists rec. repeat split; assumption.
Defined.

(** An [evt_strike] or [evt_precip] message whose [evt] array holds at
    least the timestamp flattens without logging, with [time_epoch] and
    [time_epoch.<label>] set to [evt[0]].  For [evt_strike],
    [distance.<label>] holds [evt[1]] and [energy.<label>] holds [evt[2]]
    where the array reaches that far; for [evt_precip] nothing else of the
    array is kept. *)
Theorem event_flattening (now : Z) (pkt : dict value) (sn ty : string)
    (t : value) (vs : list value) :
  dict_get "serial_number" pkt = Some (VStr sn) ->
  dict_get "type" pkt = Some (VStr ty) ->
  ty = "evt_strike" \/ ty = "evt_precip" ->
  dict_get "evt" pkt = Some (VList (t :: vs)) ->
  exists rec,
    parseUDPPacket now pkt = (inr rec, []) /\
    dict_get "time_epoch" rec = Some t /\
    dict_get (composite_key "time_epoch" (label_of sn ty)) rec = Some t /\
    (ty = "evt_strike" ->
     dict_get (composite_key "distance" (label_of sn ty)) rec
       = match vs with v :: _ => Some v | [] => dict_get "distance" pkt end /\
     dict_get (composite_key "energy" (label_of sn ty)) rec
       = match vs with _ :: v :: _ => Some v | _ => dict_get "energy" pkt end) /\
    (ty = "evt_precip" ->
     forall f, f <> "time_epoch" ->
       dict_get (composite_key f (label_of sn ty)) rec = dict_get f pkt).
Proof.
  intros Hsn Hty T Hevt.
  destruct T as [->| ->].
  - eexists. split.
    + rewrite (parseUDPPacket_dispatch _ pkt sn "evt_strike" Hsn Hty).
      apply (dispatch_event _ _ _ _ _ _ _ t (t :: vs) (or_introl eq_refl)
               eq_refl Hevt); reflexivity.
    + destruct (zip3_lookups pkt (label_of sn "evt_strike")
                  "distance" "energy" t vs eq_refl) as (A & B & C & D).
      repeat split; trivial. discriminate.
  - exists (dict_set ("time_epoch" ++ "." ++ label_of sn "evt_precip") t
              (dict_set "time_epoch" t
                 (fold_left (raw_step pkt (label_of sn "evt_precip"))
                    (dict_keys pkt) []))).
    split.
    + rewrite (parseUDPPacket_dispatch _ pkt sn "evt_precip" Hsn Hty).
      rewrite (dispatch_event now pkt "evt_precip" _ _ ["time_epoch"]
                 (VList (t :: vs)) t (t :: vs) (or_intror eq_refl)
                 eq_refl Hevt eq_refl eq_refl).
      reflexivity.
    + split; [|split; [|split]].
      * rewrite dict_get_set_other by apply time_epoch_not_composite.
        apply dict_get_set_same.
      * apply dict_get_set_same.
      * discriminate.
      * intros _ f N. unfold composite_key.
        rewrite dict_get_set_other
          by (intros E; apply composite_inj in E; contradiction).
        rewrite dict_get_set_other
          by (intros E; symmetry in E; now apply time_epoch_not_composite in E).
        apply raw_get.
Qed.

Lemma event_flattening_witness :
  exists rec,
    parseUDPPacket 0
      (message_with "AR-00004424" "evt_strike" "evt"
         (VList [VInt 1600000010; VInt 27; VInt 3848])) = (inr rec, []) /\
    dict_get "time_epoch" rec = Some (VInt 1600000010) /\
    dict_get "distance.AR_00004424.evt_strike" rec = Some (VInt 27) /\
    dict_get "energy.AR_00004424.evt_strike" rec = Some (VInt 3848).
Proof.
  destruct (event_flattening 0
              (message_with "AR-00004424" "evt_strike" "evt"
                 (VList [VInt 1600000010; VInt 27; VInt 3848]))
              "AR-00004424" "evt_strike" (VInt 1600000010)
              [VInt 27; VInt 3848]
              eq_refl eq_refl (or_introl eq_refl) eq_refl)
    as (rec & P & T & _ & S & _).
  destruct (S eq_refl) as [D E].
  exists rec. repeat split; assumption.
Defined.

(** A [device_status] or [hub_status] message flattens exactly when it has
    a [timestamp] key: then [time_epoch] is the value under [timestamp],
    whatever it is, every top-level key is kept as a raw field, and nothing
    is logged; without the key [KeyError] is raised. *)
Theorem status_flattening (now : Z) (pkt : dict value) (sn ty : string) :
  dict_get "serial_number" pkt = Some (VStr sn) ->
  dict_get "type" pkt = Some (VStr ty) ->
  ty = "device_status" \/ ty = "hub_status" ->
  match dict_get "timestamp" pkt with
  | Some t =>
      exists rec,
        parseUDPPacket now pkt = (inr rec, []) /\
        dict_get "time_epoch" rec = Some t /\
        forall k0,
          dict_get (composite_key k0 (label_of sn ty)) rec = dict_get k0 pkt
  | None => parseUDPPacket now pkt = (inl KeyError, [])
  end.
Proof.
  intros Hsn Hty T.
  rewrite (parseUDPPacket_dispatch _ pkt sn ty Hsn Hty), (dispatch_status _ _ _ _ _ T).
  destruct (dict_get "timestamp" pkt) as [t|] eqn:G.
  - rewrite (getitem_Some _ _ _ G), bind_ret_l. eexists. split; [reflexivity|].
    split; [apply dict_get_set_same|].
    intros k0. unfold composite_key.
    rewrite dict_get_set_other
      by (intros E; symmetry in E; now apply time_epoch_not_composite in E).
    apply raw_get.
  - now rewrite (getitem_None _ _ G).
Qed.

Lemma status_flattening_witness :
  parseUDPPacket 0 (bare_message "HB-00000001" "hub_status")
  = (inl KeyError, []).
Proof.
  exact (status_flattening 0 (bare_message "HB-00000001" "hub_status")
           "HB-00000001" "hub_status" eq_refl eq_refl (or_intror eq_refl)).
Defined.

(** A message whose type is none the dispatch knows is flattened to its
    raw fields alone: one "Unknown packet type" line is logged at ERROR,
    the record has no [time_epoch], and projecting it gives a record with
    no field but those of the alias table: no [dateTime] and no [usUnits]
    unless an alias has that name. *)
Theorem unknown_type_flattening (now : Z) (pkt : dict value) (sn ty : string) :
  dict_get "serial_number" pkt = Some (VStr sn) ->
  dict_get "type" pkt = Some (VStr ty) ->
  dict_in ty fields = false ->
  String.eqb ty "device_status" = false ->
  String.eqb ty "hub_status" = false ->
  String.eqb (substring 0 2 ty) "X_" = false ->
  exists rec,
    parseUDPPacket now pkt = (inr rec, [(ERROR, Unknown_packet_type ty)]) /\
    dict_get "time_epoch" rec = None /\
    (forall k0,
       dict_get (composite_key k0 (label_of sn ty)) rec = dict_get k0 pkt) /\
    forall (METRICWX : value) (sensor_map : dict string),
    exists out,
      sendMyLoopPacket METRICWX rec sensor_map = (inr out, []) /\
      forall w, ~ In w (dict_keys sensor_map) -> dict_get w out = None.
Proof.
  intros Hsn Hty NT D H X. rewrite dict_in_get in NT.
  destruct (dict_get ty fields) eqn:NT'; [discriminate|].
  eexists. split; [|split; [|split]].
  - rewrite (parseUDPPacket_dispatch _ pkt sn ty Hsn Hty).
    now apply dispatch_unknown.
  - apply raw_no_time_epoch.
  - intros k0. apply raw_get.
  - intros METRICWX sm. eexists. split; [apply sendMyLoopPacket_fold|].
    intros w NI. unfold seed. rewrite raw_no_time_epoch.
    now rewrite alias_fold_other.
Qed.

Lemma unknown_type_flattening_witness :
  exists rec,
    parseUDPPacket 0 (bare_message "HB-00000001" "light_debug")
    = (inr rec, [(ERROR, Unknown_packet_type "light_debug")]) /\
    dict_get "time_epoch" rec = None /\
    dict_get "type.HB_00000001.light_debug" rec = Some (VStr "light_debug").
Proof.
  destruct (unknown_type_flattening 0
              (bare_message "HB-00000001" "light_debug")
              "HB-00000001" "light_debug"
              eq_refl eq_refl eq_refl eq_refl eq_refl eq_refl)
    as (rec & P & T & Raw & _).
  exists rec. split; [exact P|]. split; [exact T|].
  exact (Raw "type").
Defined.

(** With both keys in the message, a [serial_number] that is not a string
    raises [AttributeError] (it has no [replace]), and a [type] that is not
    a string, beside a string [serial_number], raises [TypeError] (it cannot
    be added to a string); nothing is logged. *)
Theorem non_string_identity_raises (now : Z) (pkt : dict value) :
  (forall v,
     dict_get "serial_number" pkt = Some v -> (forall s, v <> VStr s) ->
     dict_in "type" pkt = true ->
     parseUDPPacket now pkt = (inl AttributeError, [])) /\
  (forall sn v,
     dict_get "serial_number" pkt = Some (VStr sn) ->
     dict_get "type" pkt = Some v -> (forall s, v <> VStr s) ->
     parseUDPPacket now pkt = (inl TypeError, [])).
Proof.
  split.
  - intros v Hsn N Ity. unfold parseUDPPacket.
    rewrite dict_in_get, Hsn, Ity, (getitem_Some _ _ _ Hsn), bind_ret_l.
    destruct v; try reflexivity. now destruct (N s).
  - intros sn v Hsn Hty N. unfold parseUDPPacket.
    rewrite !dict_in_get, Hsn, Hty, (getitem_Some _ _ _ Hsn), bind_ret_l.
    cbn [expect_str]. rewrite bind_ret_l, (getitem_Some _ _ _ Hty), bind_ret_l.
    destruct v; try reflexivity. now destruct (N s).
Qed.

Lemma non_string_identity_raises_witness :
  parseUDPPacket 0 [("serial_number", VInt 4424); ("type", VStr "obs_air")]
  = (inl AttributeError, []).
Proof.
  apply (proj1 (non_string_identity_raises 0
                  [("serial_number", VInt 4424); ("type", VStr "obs_air")])
           (VInt 4424) eq_refl); [intros s; discriminate | reflexivity].
Defined.

(** ** When flattening raises *)

Lemma subscript0_cases (v : value) :
  (indexable v = true /\
   exists t xs, subscript0 v = ret t /\ iter v = ret xs) \/
  (indexable v = false /\ exists e, subscript0 v = raise e).
Proof.
  destruct v as [| | | |[|c s]|[|x r]|]; simpl;
    try (right; split; [reflexivity | eexists; reflexivity]);
    left; split; try reflexivity; do 2 eexists; split; reflexivity.
Qed.

Lemma event_fields (ty : string) :
  in_tuple ty ["evt_strike"; "evt_precip"] = true ->
  exists names, dict_get ty fields = Some names.
Proof.
  unfold in_tuple. cbn [existsb].
  destruct (String.eqb_spec ty "evt_strike") as [->|_];
    [eexists; reflexivity|].
  destruct (String.eqb_spec ty "evt_precip") as [->|_];
    [eexists; reflexivity|].
  discriminate.
Qed.

(** The timestamp read, the table lookup and the zip over a payload [a]
    that is read again under [key]: they return exactly when [a] can be
    indexed. *)
Lemma positional_returned (pkt : dict value) (key tab label : string)
    (names : list string) (a : value) (p : dict value) :
  dict_get key pkt = Some a ->
  dict_get tab fields = Some names ->
  returned
    (a <- getitem key pkt ;;
     t <- subscript0 a ;;
     let packet := dict_set "time_epoch" t p in
     names <- getitem tab fields ;;
     a' <- getitem key pkt ;;
     values <- iter a' ;;
     store_zip names values label packet)
  = indexable a.
Proof.
  intros G Hn. cbv zeta. rewrite (getitem_Some _ _ _ G), bind_ret_l.
  destruct (subscript0_cases a) as [[-> (t & xs & S & It)]|[-> (e & S)]];
    rewrite S; [|reflexivity].
  rewrite !bind_ret_l, (getitem_Some _ _ _ Hn), !bind_ret_l, It, bind_ret_l.
  rewrite store_zip_fold. reflexivity.
Qed.

Lemma returned_flattens (now : Z) (pkt : dict value) :
  returned (parseUDPPacket now pkt) = flattens pkt.
Proof.
  unfold flattens.
  destruct (dict_get "serial_number" pkt) as [snv|] eqn:Hsn;
    [|rewrite parseUDPPacket_corrupt
        by (left; now rewrite dict_in_get, Hsn); reflexivity].
  destruct (dict_get "type" pkt) as [tyv|] eqn:Hty;
    [|rewrite parseUDPPacket_corrupt
        by (right; now rewrite dict_in_get, Hty); now destruct snv].
  destruct snv as [| | | |sn| |];
    try (unfold parseUDPPacket;
         rewrite !dict_in_get, Hsn, Hty, (getitem_Some _ _ _ Hsn);
         reflexivity).
  destruct tyv as [| | | |ty| |];
    try (unfold parseUDPPacket;
         rewrite !dict_in_get, Hsn, Hty, (getitem_Some _ _ _ Hsn),
           (getitem_Some _ _ _ Hty);
         reflexivity).
  rewrite (parseUDPPacket_dispatch _ pkt sn ty Hsn Hty).
  set (label := label_of sn ty).
  set (raw := fold_left (raw_step pkt label) (dict_keys pkt) []).
  unfold dispatch.
  destruct (in_tuple ty ["obs_air"; "obs_sky"; "obs_st"]) eqn:R.
  { destruct (rollup_fields ty R) as (names & Hn & _).
    destruct (dict_get "obs" pkt) as [obs|] eqn:G;
      [|now rewrite (getitem_None _ _ G)].
    rewrite (getitem_Some _ _ _ G), bind_ret_l.
    destruct obs as [| | | |[|c s]|[|x r]|]; try reflexivity.
    - cbn [indexable_twice].
      repeat (rewrite bind_ret_l || rewrite (getitem_Some _ _ _ Hn)
              || rewrite (getitem_Some _ _ _ G) || rewrite store_zip_fold
              || cbn [subscript0 iter]).
      reflexivity.
    - cbn [subscript0 indexable_twice]. rewrite bind_ret_l.
      destruct (subscript0_cases x) as [[-> (t & xs & S & It)]|[-> (e & S)]];
        rewrite S; [|reflexivity].
      repeat (rewrite bind_ret_l || rewrite (getitem_Some _ _ _ Hn)
              || rewrite (getitem_Some _ _ _ G) || rewrite It
              || rewrite store_zip_fold || cbn [subscript0]).
      reflexivity. }
  destruct (String.eqb ty "rapid_wind") eqn:W.
  { destruct (dict_get "ob" pkt) as [ob|] eqn:G;
      [|now rewrite (getitem_None _ _ G)].
    exact (positional_returned pkt "ob" "rapid_wind" label _ ob raw G eq_refl). }
  destruct (in_tuple ty ["evt_strike"; "evt_precip"]) eqn:E.
  { destruct (event_fields ty E) as (names & Hn).
    destruct (dict_get "evt" pkt) as [evt|] eqn:G;
      [|now rewrite (getitem_None _ _ G)].
    exact (positional_returned pkt "evt" ty label names evt raw G Hn). }
  assert (Status :
    returned (t <- getitem "timestamp" pkt ;;
              ret (dict_set "time_epoch" t raw))
    = dict_in "timestamp" pkt).
  { rewrite dict_in_get. destruct (dict_get "timestamp" pkt) as [t|] eqn:G.
    - now rewrite (getitem_Some _ _ _ G), bind_ret_l.
    - now rewrite (getitem_None _ _ G). }
  destruct (String.eqb ty "device_status"); [exact Status|].
  destruct (String.eqb ty "hub_status"); [exact Status|].
  cbn [orb].
  destruct (String.eqb (substring 0 2 ty) "X_"); reflexivity.
Qed.

(** [parseUDPPacket] returns exactly on the messages that [flattens]
    accepts, and on the others it raises without having logged anything.
    So it raises exactly when both [serial_number] and [type] are present
    and: one of them is not a string; or the type is a roll-up and [obs] is
    missing or [obs[0][0]] cannot be read; or the type is [rapid_wind] (an
    event) and [ob] ([evt]) is missing or is not a non-empty list or
    string; or the type is a status type and [timestamp] is missing. *)
Theorem parseUDPPacket_returns_iff (now : Z) (pkt : dict value) :
  (flattens pkt = true <->
   exists rec log, parseUDPPacket now pkt = (inr rec, log)) /\
  (flattens pkt = false <->
   exists e, parseUDPPacket now pkt = (inl e, [])).
Proof.
  rewrite <- (returned_flattens now pkt). unfold returned.
  assert (Q : forall e l, parseUDPPacket now pkt = (inl e, l) -> l = []).
  { intros e l E.
    destruct (parseUDPPacket_quiet_or_returns now pkt) as [S|(rec & l' & E')].
    - unfold silent in S. now rewrite E in S.
    - rewrite E in E'. discriminate. }
  destruct (parseUDPPacket now pkt) as [[e|rec] l]; cbn [fst].
  - rewrite (Q e l eq_refl). split; split.
    + discriminate.
    + intros (rec & log & [=]).
    + intros _. now exists e.
    + reflexivity.
  - split; split.
    + intros _. now exists rec, l.
    + reflexivity.
    + discriminate.
    + intros (e & [=]).
Qed.

Lemma parseUDPPacket_returns_iff_witness :
  flattens (message_with "SK-00001234" "rapid_wind" "ob" (VList [])) = false /\
  exists e,
    parseUDPPacket 0 (message_with "SK-00001234" "rapid_wind" "ob" (VList []))
    = (inl e, []).
Proof.
  split; [reflexivity|].
  exact (proj1 (proj2 (parseUDPPacket_returns_iff 0
                         (message_with "SK-00001234" "rapid_wind" "ob"
                            (VList [])))) eq_refl).
Defined.

(** ** The projection *)

Lemma alias_fold_ext (pkt1 pkt2 : dict value) (sm1 sm2 : dict string)
    (p : dict value) :
  map fst sm1 = map fst sm2 ->
  map (fun item => dict_get (normalize (snd item)) pkt1) sm1
  = map (fun item => dict_get (normalize (snd item)) pkt2) sm2 ->
  fold_left (alias_step pkt1) sm1 p = fold_left (alias_step pkt2) sm2 p.
Proof.
  revert sm2 p; induction sm1 as [|[w1 l1] sm1 IH]; intros [|[w2 l2] sm2] p;
    simpl; try discriminate; [reflexivity|].
  intros [= -> Ew] [= El Em]. unfold alias_step at 2 4. cbn [fst snd].
  rewrite El. now apply IH.
Qed.

(** The projection reads an alias only through its normalized dotted key:
    two alias tables with the same names in the same order, whose dotted
    keys agree once hyphens are replaced by underscores, give the same
    Output Record.  So an alias may spell the hardware id with hyphens, as
    the hub prints it, or with underscores. *)
Theorem aliases_up_to_hyphens (METRICWX : value) (pkt : dict value)
    (sm1 sm2 : dict string) :
  map (fun item => (fst item, str_replace "-" "_" (snd item))) sm1
  = map (fun item => (fst item, str_replace "-" "_" (snd item))) sm2 ->
  sendMyLoopPacket METRICWX pkt sm1 = sendMyLoopPacket METRICWX pkt sm2.
Proof.
  intros E. rewrite !sendMyLoopPacket_fold. f_equal.
  apply alias_fold_ext.
  - apply (f_equal (map fst)) in E. rewrite !map_map in E. exact E.
  - apply (f_equal (map (fun it : string * string => dict_get (snd it) pkt)))
      in E.
    rewrite !map_map in E. exact E.
Qed.

Lemma aliases_up_to_hyphens_witness :
  sendMyLoopPacket (VInt 17)
    [("time_epoch", VInt 5); ("air_temperature.AR_00004424.obs_air", VInt 22)]
    [("outTemp", "air_temperature.AR-00004424.obs_air")]
  = sendMyLoopPacket (VInt 17)
    [("time_epoch", VInt 5); ("air_temperature.AR_00004424.obs_air", VInt 22)]
    [("outTemp", "air_temperature.AR_00004424.obs_air")].
Proof.
  exact (aliases_up_to_hyphens (VInt 17)
           [("time_epoch", VInt 5);
            ("air_temperature.AR_00004424.obs_air", VInt 22)]
           [("outTemp", "air_temperature.AR-00004424.obs_air")]
           [("outTemp", "air_temperature.AR_00004424.obs_air")] eq_refl).
Defined.

Lemma has_hyphen_normalize (s : string) : has_char "-" (normalize s) = false.
Proof.
  unfold normalize. induction s as [|c s IH]; simpl; [reflexivity|].
  rewrite IH. destruct (Ascii.eqb_spec c "-") as [->|N]; [reflexivity|].
  now apply Ascii.eqb_neq in N as ->.
Qed.

Lemma hyphen_free_get (pkt : dict value) (k : string) :
  has_char "-" k = false -> dict_get k (hyphen_free pkt) = dict_get k pkt.
Proof.
  intros H. unfold hyphen_free.
  induction pkt as [|[k' v'] pkt IH]; simpl; [reflexivity|].
  destruct (String.eqb_spec k k') as [<-|N].
  - rewrite H. simpl. now rewrite String.eqb_refl.
  - destruct (has_char "-" k'); simpl; [exact IH|].
    destruct (String.eqb_spec k k'); [contradiction | exact IH].
Qed.

(** The projection never reads a record key that has a hyphen, since it
    looks up normalized keys only: dropping every such entry from the
    record changes nothing in the Output Record.  A field whose composite
    key has a hyphen (from the type or from a top-level key of the message)
    can therefore not be selected by any alias. *)
Theorem hyphenated_keys_unreachable (METRICWX : value) (pkt : dict value)
    (sensor_map : dict string) :
  sendMyLoopPacket METRICWX (hyphen_free pkt) sensor_map
  = sendMyLoopPacket METRICWX pkt sensor_map.
Proof.
  rewrite !sendMyLoopPacket_fold. unfold seed.
  rewrite (hyphen_free_get pkt "time_epoch" eq_refl). f_equal.
  apply alias_fold_ext; [reflexivity|].
  apply map_ext. intros [w lbl]. cbn [snd].
  apply hyphen_free_get, has_hyphen_normalize.
Qed.

(** The entries the alias loop leaves: those it started with and, under
    alias names, values of the record. *)
Lemma alias_fold_entries (pkt : dict value) (sm : dict string)
    (p : dict value) (k : string) (v : value) :
  In (k, v) (fold_left (alias_step pkt) sm p) ->
  In (k, v) p \/
  (In k (dict_keys sm) /\ exists k', dict_get k' pkt = Some v).
Proof.
  revert p; induction sm as [|[w0 l0] sm IH]; intros p; cbn [fold_left];
    [now left|].
  intros I. destruct (IH _ I) as [I'|[K V]].
  - unfold alias_step in I'. cbn [fst snd] in I'.
    destruct (dict_get (normalize l0) pkt) as [v0|] eqn:G; [|now left].
    apply dict_set_In in I' as [[-> ->]|I']; [|now left].
    right. split; [now left | now exists (normalize l0)].
  - right. split; [now right | exact V].
Qed.

(** The alias loop removes no key. *)
Lemma alias_fold_keeps (pkt : dict value) (sm : dict string)
    (p : dict value) (k : string) :
  dict_in k p = true -> dict_in k (fold_left (alias_step pkt) sm p) = true.
Proof.
  revert p; induction sm as [|[w0 l0] sm IH]; intros p H; cbn [fold_left];
    [exact H|].
  apply IH. unfold alias_step. cbn [fst snd].
  destruct (dict_get (normalize l0) pkt); [|exact H].
  rewrite dict_in_get, dict_get_set. rewrite dict_in_get in H.
  now destruct (String.eqb k w0).
Qed.

(** The Output Record keeps both seed fields whenever the record has
    [time_epoch], whatever the alias table; and it holds nothing made up:
    every key is an alias name or, for a record with [time_epoch], one of
    [dateTime] and [usUnits], and every value is a value of the record or
    the unit-system tag. *)
Theorem output_record_fields (METRICWX : value) (pkt : dict value)
    (sensor_map : dict string) (out : dict value) (log : list logrec) :
  sendMyLoopPacket METRICWX pkt sensor_map = (inr out, log) ->
  (dict_in "time_epoch" pkt = true ->
   dict_in "dateTime" out = true /\ dict_in "usUnits" out = true) /\
  (forall k v, dict_get k out = Some v ->
     (In k (dict_keys sensor_map) \/
      (dict_in "time_epoch" pkt = true /\ (k = "dateTime" \/ k = "usUnits")))
     /\
     (v = METRICWX \/ exists k', dict_get k' pkt = Some v)).
Proof.
  rewrite sendMyLoopPacket_fold. intros [= <- _]. split.
  - intros T. unfold seed. rewrite dict_in_get in T.
    destruct (dict_get "time_epoch" pkt) as [t|]; [|discriminate].
    split; apply alias_fold_keeps; reflexivity.
  - intros k v G. apply dict_get_In in G.
    apply alias_fold_entries in G as [I|[K V]]; [|split; [now left | now right]].
    unfold seed in I. rewrite dict_in_get.
    destruct (dict_get "time_epoch" pkt) as [t|] eqn:T; [|destruct I].
    destruct I as [[= <- <-]|[[= <- <-]|[]]].
    + split; [right; split; [reflexivity | now left]|].
      right. now exists "time_epoch".
    + split; [right; split; [reflexivity | now right] | now left].
Qed.

Lemma output_record_fields_witness :
  exists out,
    sendMyLoopPacket (VInt 17)
      [("time_epoch", VInt 5); ("a.B_1.t", VInt 7)]
      [("dateTime", "a.B-1.t"); ("x", "missing")] = (inr out, []) /\
    dict_in "dateTime" out = true /\ dict_in "usUnits" out = true.
Proof.
  eexists. split; [reflexivity|].
  exact (proj1 (output_record_fields (VInt 17)
                  [("time_epoch", VInt 5); ("a.B_1.t", VInt 7)]
                  [("dateTime", "a.B-1.t"); ("x", "missing")] _ [] eq_refl)
           eq_refl).
Defined.

(** ** Which records the loop yields *)

Lemma dict_set_length {V} (k : string) (v : V) (d : dict V) :
  length (dict_set k v d) = if dict_in k d then length d else S (length d).
Proof.
  induction d as [|[k' v'] d IH]; simpl; [reflexivity|].
  destruct (String.eqb k k'); simpl; [reflexivity|].
  rewrite IH. now destruct (dict_in k d).
Qed.

(** Each matching alias with a fresh name adds one entry. *)
Lemma alias_fold_length (pkt : dict value) (sm : dict string)
    (p : dict value) :
  dict_wf sm ->
  (forall w, In w (dict_keys sm) -> dict_in w p = false) ->
  length (fold_left (alias_step pkt) sm p)
  = length p + length (matching pkt sm).
Proof.
  unfold dict_wf. revert p; induction sm as [|[w0 l0] sm IH]; intros p W F;
    cbn [fold_left]; [simpl; lia|].
  inversion W as [|? ? NI W']; subst.
  unfold matching. cbn [filter snd]. fold (matching pkt sm).
  unfold alias_step at 2. cbn [fst snd]. rewrite dict_in_get.
  destruct (dict_get (normalize l0) pkt) as [v|] eqn:G.
  - rewrite IH; trivial.
    + rewrite dict_set_length, (F w0 (or_introl eq_refl)). simpl. lia.
    + intros w I. rewrite dict_in_get, dict_get_set.
      destruct (String.eqb_spec w w0) as [->|N]; [contradiction|].
      rewrite <- dict_in_get. apply F. now right.
  - apply IH; trivial. intros w I. apply F. now right.
Qed.

(** For an alias table that is a dict and has no alias named [dateTime] or
    [usUnits], the Output Record has one entry per alias whose normalized
    key is in the Flattened Record, beside the two seed fields when the
    record has [time_epoch].  So the loop yields the record of a packet
    with a timestamp as soon as one alias matches, and the record of a
    packet without one (an unknown type) only when at least three do. *)
Theorem yield_condition (METRICWX : value) (sensor_map : dict string)
    (now : Z) (pkt rec : dict value) (log : list logrec) :
  parseUDPPacket now pkt = (inr rec, log) ->
  dict_wf sensor_map ->
  ~ In "dateTime" (dict_keys sensor_map) ->
  ~ In "usUnits" (dict_keys sensor_map) ->
  exists out,
    sendMyLoopPacket METRICWX rec sensor_map = (inr out, []) /\
    length out
    = (if dict_in "time_epoch" rec then 2 else 0)
      + length (matching rec sensor_map) /\
    genLoopPackets_step METRICWX sensor_map now pkt
    = (inr (if ((if dict_in "time_epoch" rec then 0 else 2)
                <? length (matching rec sensor_map))%nat
            then Some out else None), log).
Proof.
  intros P W ND NU.
  exists (fold_left (alias_step rec) sensor_map (seed METRICWX rec)).
  assert (L : length (fold_left (alias_step rec) sensor_map (seed METRICWX rec))
              = (if dict_in "time_epoch" rec then 2 else 0)
                + length (matching rec sensor_map)).
  { rewrite alias_fold_length; trivial.
    - unfold seed. rewrite dict_in_get.
      now destruct (dict_get "time_epoch" rec).
    - intros w I. unfold seed.
      destruct (dict_get "time_epoch" rec); [|reflexivity].
      cbn [dict_in].
      destruct (String.eqb_spec w "dateTime") as [->|_]; [contradiction|].
      destruct (String.eqb_spec w "usUnits") as [->|_]; [contradiction|].
      reflexivity. }
  split; [apply sendMyLoopPacket_fold|]. split; [exact L|].
  unfold genLoopPackets_step. rewrite P. cbn [bind].
  rewrite sendMyLoopPacket_fold, bind_ret_l. cbn [ret].
  rewrite L, !app_nil_r.
  destruct (dict_in "time_epoch" rec); reflexivity.
Qed.

Lemma yield_condition_witness :
  dict_wf [("a", "type.HB-1.zz"); ("b", "serial_number.HB-1.zz")] /\
  genLoopPackets_step (VInt 17)
    [("a", "type.HB-1.zz"); ("b", "serial_number.HB-1.zz")] 0
    (bare_message "HB-1" "zz")
  = (inr None, [(ERROR, Unknown_packet_type "zz")]).
Proof.
  assert (W : dict_wf [("a", "type.HB-1.zz"); ("b", "serial_number.HB-1.zz")]).
  { unfold dict_wf. simpl. repeat constructor; simpl; intuition discriminate. }
  split; [exact W|].
  destruct (yield_condition (VInt 17)
              [("a", "type.HB-1.zz"); ("b", "serial_number.HB-1.zz")] 0
              (bare_message "HB-1" "zz") _ _ eq_refl W)
    as (out & _ & _ & Y).
  - simpl. intuition discriminate.
  - simpl. intuition discriminate.
  - exact Y.
Defined.

(** ** From a positional value to its alias *)

Lemma normalize_append (a b : string) :
  normalize (a ++ b) = normalize a ++ normalize b.
Proof.
  unfold normalize. induction a as [|c a IH]; simpl; [reflexivity|].
  now rewrite IH.
Qed.

Lemma normalize_hyphen_free (s : string) :
  has_char "-" s = false -> normalize s = s.
Proof.
  unfold normalize. induction s as [|c s IH]; simpl; [reflexivity|].
  destruct (Ascii.eqb c "-"); [discriminate|].
  intros H. now rewrite IH.
Qed.

(** An alias written [<field>.<hardware id>.<type>], with the id as the
    message has it, is looked up under the composite key of the field. *)
Lemma normalize_alias (f sn ty : string) :
  has_char "-" f = false -> has_char "-" ty = false ->
  normalize (f ++ "." ++ sn ++ "." ++ ty) = composite_key f (label_of sn ty).
Proof.
  intros Hf Hty. unfold composite_key, label_of.
  rewrite !normalize_append, (normalize_hyphen_free f Hf),
    (normalize_hyphen_free ty Hty).
  reflexivity.
Qed.

Lemma forallb_hyphen_free (l : list string) :
  forallb (fun f => negb (has_char "-" f)) l = true ->
  forall f, In f l -> has_char "-" f = false.
Proof.
  intros H f I. rewrite forallb_forall in H.
  now apply negb_true_iff, H.
Qed.

(** No type with a field table and no field name has a hyphen. *)
Lemma fields_hyphen_free (ty : string) (names : list string) :
  dict_get ty fields = Some names ->
  has_char "-" ty = false /\
  forall f, In f names -> has_char "-" f = false.
Proof.
  unfold fields. cbn [dict_get].
  repeat (match goal with
          | |- context [String.eqb ty ?x] =>
              destruct (String.eqb_spec ty x) as [->|_];
              [intros [= <-]; split;
               [reflexivity | apply forallb_hyphen_free; reflexivity]|]
          end).
  discriminate.
Qed.

(** The dispatch of a message with a payload, run forward. *)
Lemma payload_run (now : Z) (pkt : dict value) (sn ty : string)
    (names : list string) (a t : value) (values : list value) :
  dict_get "serial_number" pkt = Some (VStr sn) ->
  dict_get "type" pkt = Some (VStr ty) ->
  dict_get ty fields = Some names ->
  payload pkt ty = Some a ->
  subscript0 a = ret t -> iter a = ret values ->
  parseUDPPacket now pkt
  = ret (fold_left (zip_step (label_of sn ty)) (combine names values)
           (dict_set "time_epoch" t
              (fold_left (raw_step pkt (label_of sn ty)) (dict_keys pkt) []))).
Proof.
  intros Hsn Hty Hn Hp S I.
  rewrite (parseUDPPacket_dispatch _ pkt sn ty Hsn Hty).
  unfold payload in Hp.
  destruct (in_tuple ty ["obs_air"; "obs_sky"; "obs_st"]) eqn:R.
  { unfold dispatch. rewrite R.
    destruct (dict_get "obs" pkt) as [obs|] eqn:G; [|discriminate].
    assert (S0 : subscript0 obs = ret a).
    { destruct obs as [| | | |[|c s]|[|x r]|]; try discriminate;
        injection Hp as <-; reflexivity. }
    repeat (rewrite bind_ret_l || rewrite (getitem_Some _ _ _ G)
            || rewrite (getitem_Some _ _ _ Hn) || rewrite S0 || rewrite S).
    now apply zip_branch_run. }
  destruct (String.eqb_spec ty "rapid_wind") as [->|W].
  { injection Hn as <-. now apply (dispatch_rapid_wind _ _ _ _ a). }
  destruct (in_tuple ty ["evt_strike"; "evt_precip"]) eqn:E; [|discriminate].
  apply (dispatch_event _ _ _ _ _ _ a); trivial.
  unfold in_tuple in E. cbn [existsb] in E.
  destruct (String.eqb_spec ty "evt_strike"); [now left|].
  destruct (String.eqb_spec ty "evt_precip"); [now right | discriminate].
Qed.

(** End to end: for a message of a positional type whose array [t :: vs]
    is a list, and an alias table (a dict) with the entry
    [w = <field>.<serial_number>.<type>], the serial number spelled as the
    message has it, flattening and projecting gives a record that holds
    under [w] the array element at the position of the field in the type's
    table, and nothing is logged. *)
Theorem alias_delivers_positional_value (METRICWX : value)
    (sensor_map : dict string) (now : Z) (pkt : dict value) (sn ty : string)
    (names : list string) (t : value) (vs : list value)
    (w f : string) (v : value) :
  dict_get "serial_number" pkt = Some (VStr sn) ->
  dict_get "type" pkt = Some (VStr ty) ->
  dict_get ty fields = Some names ->
  payload pkt ty = Some (VList (t :: vs)) ->
  In (f, v) (combine names (t :: vs)) ->
  dict_wf sensor_map ->
  In (w, f ++ "." ++ sn ++ "." ++ ty) sensor_map ->
  exists out,
    flatten_project METRICWX sensor_map now pkt = (inr out, []) /\
    dict_get w out = Some v.
Proof.
  intros Hsn Hty Hn Hp I W A.
  destruct (fields_shape _ _ Hn) as [_ ND].
  destruct (fields_hyphen_free _ _ Hn) as [Hy Hf].
  unfold flatten_project.
  rewrite (payload_run now pkt sn ty names _ t (t :: vs) Hsn Hty Hn Hp
             eq_refl eq_refl).
  rewrite bind_ret_l, sendMyLoopPacket_fold.
  eexists. split; [reflexivity|].
  rewrite (alias_fold_get _ sensor_map _ w W), (dict_wf_In_get _ _ _ W A).
  rewrite normalize_alias; trivial; [|apply Hf; eapply in_combine_l; exact I].
  unfold composite_key.
  rewrite (zip_fold_get_in _ _ _ _ _ (combine_fst_NoDup _ _ ND) I).
  reflexivity.
Qed.

Lemma alias_delivers_positional_value_witness :
  dict_wf [("outTemp", "air_temperature.AR-00004424.obs_air")] /\
  exists out,
    flatten_project (VInt 17)
      [("outTemp", "air_temperature.AR-00004424.obs_air")] 0 obs_air_example
    = (inr out, []) /\
    dict_get "outTemp" out
    = Some (VFloat (S754_finite false 6276891980647629 (-48))).
Proof.
  assert (W : dict_wf [("outTemp", "air_temperature.AR-00004424.obs_air")]).
  { unfold dict_wf. simpl. repeat constructor; simpl; intuition. }
  split; [exact W|].
  refine (alias_delivers_positional_value (VInt 17)
            [("outTemp", "air_temperature.AR-00004424.obs_air")] 0
            obs_air_example "AR-00004424" "obs_air" _ _ _
            "outTemp" "air_temperature" _
            eq_refl eq_refl eq_refl eq_refl _ W (or_introl eq_refl)).
  simpl. right; right; now left.
Defined.

(** ** The loop of [genLoopPackets] *)

(** One turn returns or raises as flattening does, with the same log. *)
Lemma genLoopPackets_step_of_parse (METRICWX : value) (sm : dict string)
    (now : Z) (pkt : dict value) :
  match parseUDPPacket now pkt with
  | (inl e, l) => genLoopPackets_step METRICWX sm now pkt = (inl e, l)
  | (inr rec, l) =>
      exists m3, genLoopPackets_step METRICWX sm now pkt = (inr m3, l)
  end.
Proof.
  unfold genLoopPackets_step.
  destruct (parseUDPPacket now pkt) as [[e|rec] l]; cbn [bind];
    [reflexivity|].
  rewrite sendMyLoopPacket_fold, bind_ret_l. cbn [ret].
  rewrite !app_nil_r. now eexists.
Qed.

(** With an empty alias table, which is what the driver has when its
    stanza gives no [sensor_map], the loop never yields a record, whatever
    packets arrive. *)
Theorem no_sensor_map_no_data (METRICWX : value)
    (udp_packets : list (Z * dict value)) :
  fst (fst (genLoopPackets METRICWX [] udp_packets)) = [].
Proof.
  induction udp_packets as [|[now pkt] rest IH]; [reflexivity|].
  cbn [genLoopPackets]. unfold genLoopPackets_step.
  destruct (parseUDPPacket now pkt) as [[e|rec] l]; cbn [bind];
    [reflexivity|].
  rewrite sendMyLoopPacket_fold. cbn [fold_left bind ret].
  assert (Y : (2 <? length (seed METRICWX rec))%nat = false)
    by (unfold seed; now destruct (dict_get "time_epoch" rec)).
  rewrite Y.
  destruct (genLoopPackets METRICWX [] rest) as [[ys e] l']. exact IH.
Qed.

(** One turn of the loop body on a packet that [parseUDPPacket] flattens:
    the turn returns, for every alias table, having logged what flattening
    logged and nothing more; the projection and the length test raise
    nothing.  What it hands to the [yield] is the projection of the
    Flattened Record when that has more than two entries, and nothing
    otherwise. *)
Theorem loop_turn_returns_when_flattened (METRICWX : value)
    (sensor_map : dict string) (now : Z) (pkt : dict value) :
  flattens pkt = true ->
  exists rec out log,
    parseUDPPacket now pkt = (inr rec, log) /\
    sendMyLoopPacket METRICWX rec sensor_map = (inr out, []) /\
    genLoopPackets_step METRICWX sensor_map now pkt
    = (inr (if (2 <? length out)%nat then Some out else None), log).
Proof.
  intros F. pose proof (returned_flattens now pkt) as R. rewrite F in R.
  unfold returned in R.
  destruct (parseUDPPacket now pkt) as [[e|rec] log] eqn:P; [discriminate|].
  exists rec, (fold_left (alias_step rec) sensor_map (seed METRICWX rec)), log.
  split; [reflexivity|]. split; [apply sendMyLoopPacket_fold|].
  unfold genLoopPackets_step. rewrite P. cbn [bind].
  rewrite sendMyLoopPacket_fold, bind_ret_l. cbn [ret].
  now rewrite !app_nil_r.
Qed.

Lemma loop_turn_returns_when_flattened_witness :
  flattens obs_air_example = true /\
  exists rec out log,
    parseUDPPacket 0 obs_air_example = (inr rec, log) /\
    sendMyLoopPacket (VInt 17) rec
      [("outTemp", "air_temperature.AR-00004424.obs_air")] = (inr out, []) /\
    genLoopPackets_step (VInt 17)
      [("outTemp", "air_temperature.AR-00004424.obs_air")] 0 obs_air_example
    = (inr (if (2 <? length out)%nat then Some out else None), log).
Proof.
  split; [reflexivity|].
  exact (loop_turn_returns_when_flattened (VInt 17)
           [("outTemp", "air_temperature.AR-00004424.obs_air")] 0
           obs_air_example eq_refl).
Defined.

(** One turn of the loop body on a packet that [parseUDPPacket] does not
    flatten: the turn raises the very exception that flattening raises,
    for every alias table, with nothing logged and nothing handed to the
    [yield]. *)
Theorem loop_turn_raises_what_flattening_raises (METRICWX : value)
    (sensor_map : dict string) (now : Z) (pkt : dict value) :
  flattens pkt = false ->
  exists e,
    parseUDPPacket now pkt = (inl e, []) /\
    genLoopPackets_step METRICWX sensor_map now pkt = (inl e, []).
Proof.
  intros F. pose proof (returned_flattens now pkt) as R. rewrite F in R.
  unfold returned in R.
  destruct (parseUDPPacket_quiet_or_returns now pkt) as [Q|(rec & l & E)];
    [|rewrite E in R; discriminate].
  unfold silent in Q.
  destruct (parseUDPPacket now pkt) as [[e|rec] log] eqn:P; [|discriminate].
  simpl in Q. subst log. exists e. split; [reflexivity|].
  unfold genLoopPackets_step. now rewrite P.
Qed.

Lemma loop_turn_raises_what_flattening_raises_witness :
  flattens (message_with "SK-00001234" "rapid_wind" "ob" (VList [])) = false /\
  parseUDPPacket 0 (message_with "SK-00001234" "rapid_wind" "ob" (VList []))
  = (inl IndexError, []) /\
  genLoopPackets_step (VInt 17)
    [("windSpeed", "wind_speed.SK-00001234.rapid_wind")] 0
    (message_with "SK-00001234" "rapid_wind" "ob" (VList []))
  = (inl IndexError, []).
Proof.
  split; [reflexivity|].
  destruct (loop_turn_raises_what_flattening_raises (VInt 17)
              [("windSpeed", "wind_speed.SK-00001234.rapid_wind")] 0
              (message_with "SK-00001234" "rapid_wind" "ob" (VList []))
              eq_refl) as (e & P & S).
  assert (E : e = IndexError) by (cbn in P; now injection P as <-).
  subst e. split; [exact P | exact S].
Defined.

(** ** The command-line entry point *)

(** The driver that the command-line entry point builds does not depend on
    [--address], [--port] and [--timeout]: it passes them under the keys
    [address], [port] and [timeout], and [__init__] reads [udp_address],
    [udp_port] and [udp_timeout].  When it is built, it has the address
    [<broadcast>], the port [int(50222)], the timeout [int(90)], no raw
    packet logging ([tobool(False)]) and an empty sensor map; only
    [--share-socket] gets through. *)
Theorem command_line_options_ignored (tobool : value -> exn + bool)
    (int : value -> exn + Z) (address port timeout share_socket : value) :
  (forall address' port' timeout',
     loader tobool int (main_config_dict address port timeout share_socket)
     = loader tobool int
         (main_config_dict address' port' timeout' share_socket)) /\
  (forall d log,
     loader tobool int (main_config_dict address port timeout share_socket)
     = (inr d, log) ->
     _udp_address d = VStr "<broadcast>" /\
     int (VInt 50222) = inr (_udp_port d) /\
     int (VInt 90) = inr (_udp_timeout d) /\
     tobool (VBool false) = inr (_log_raw_packets d) /\
     tobool share_socket = inr (_share_socket d) /\
     _sensor_map d = VDict []).
Proof.
  split; [reflexivity|].
  intros d log. unfold loader, main_config_dict. cbn [dict_get String.eqb].
  unfold DRIVER_NAME. rewrite String.eqb_refl.
  unfold WeatherFlowUDPDriver_init, dict_get_default. cbn [dict_get].
  cbn -[fields dict_keys map app].
  destruct (tobool (VBool false)) as [e|b]; [discriminate|].
  destruct (int (VInt 50222)) as [e|po]; [discriminate|].
  destruct (int (VInt 90)) as [e|ti]; [discriminate|].
  destruct (tobool share_socket) as [e|sh]; [discriminate|].
  intros [= <- _]. now repeat split.
Qed.

Lemma command_line_options_ignored_witness :
  exists d log,
    loader (fun v => match v with VBool b => inr b | _ => inl TypeError end)
      (fun v => match v with VInt z => inr z | _ => inl TypeError end)
      (main_config_dict (VStr "0.0.0.0") (VInt 50333) (VInt 20) (VBool true))
    = (inr d, log) /\
    _udp_address d = VStr "<broadcast>" /\ _udp_port d = 50222%Z /\
    _udp_timeout d = 90%Z /\ _share_socket d = true.
Proof.
  do 2 eexists. split; [reflexivity|].
  destruct (proj2 (command_line_options_ignored
                     (fun v => match v with
                               | VBool b => inr b
                               | _ => inl TypeError
                               end)
                     (fun v => match v with
                               | VInt z => inr z
                               | _ => inl TypeError
                               end)
                     (VStr "0.0.0.0") (VInt 50333) (VInt 20) (VBool true))
              _ _ eq_refl)
    as (A & P & T & _ & S & _).
  split; [exact A|]. repeat split.
Defined.

(** ** The order of the keys of a message *)

Lemma dict_eq_set {V} (k : string) (v : V) (p p' : dict V) :
  dict_eq p p' -> dict_eq (dict_set k v p) (dict_set k v p').
Proof. intros H k0. now rewrite !dict_get_set, H. Qed.

Lemma dict_eq_zip_fold (label : string) (kvs : list (string * value))
    (p p' : dict value) :
  dict_eq p p' ->
  dict_eq (fold_left (zip_step label) kvs p)
          (fold_left (zip_step label) kvs p').
Proof.
  revert p p'; induction kvs as [|kv kvs IH]; intros p p' H; cbn [fold_left];
    [exact H|].
  apply IH. now apply dict_eq_set.
Qed.

Lemma getitem_dict_eq {V} (k : string) (d d' : dict V) :
  dict_eq d d' -> getitem k d' = getitem k d.
Proof. intros H. unfold getitem. now rewrite (H k). Qed.

(** The raw-field copy of two messages that are equal as dicts. *)
Lemma raw_dict_eq (pkt pkt' : dict value) (label : string) :
  dict_eq pkt pkt' ->
  dict_eq (fold_left (raw_step pkt label) (dict_keys pkt) [])
          (fold_left (raw_step pkt' label) (dict_keys pkt') []).
Proof.
  intros H.
  assert (T : forall d d' : dict value, dict_eq d d' -> forall k v,
            dict_get k (fold_left (raw_step d label) (dict_keys d) []) = Some v ->
            dict_get k (fold_left (raw_step d' label) (dict_keys d') [])
            = Some v).
  { intros d d' E k v G. apply dict_get_In in G.
    apply raw_fold_entries in G as [[]|(k0 & _ & -> & G)].
    rewrite raw_get, <- (E k0). exact G. }
  intros k.
  destruct (dict_get k (fold_left (raw_step pkt label) (dict_keys pkt) []))
    as [v|] eqn:G.
  - symmetry. exact (T pkt pkt' H k v G).
  - destruct (dict_get k (fold_left (raw_step pkt' label) (dict_keys pkt') []))
      as [v'|] eqn:G'; [|reflexivity].
    rewrite (T pkt' pkt (fun k0 => eq_sym (H k0)) k v' G') in G. discriminate.
Qed.

Lemma same_outcome_bind {A} (m : M A) (f f' : A -> M (dict value)) :
  (forall a, same_outcome (f a) (f' a)) ->
  same_outcome (bind m f) (bind m f').
Proof.
  intros H. destruct m as [[e|a] l]; [reflexivity|].
  specialize (H a). unfold same_outcome, bind in *.
  now destruct (f a) as [r l1], (f' a) as [r' l1'].
Qed.

Lemma dispatch_dict_eq (now : Z) (pkt pkt' : dict value) (ty label : string)
    (p p' : dict value) :
  dict_eq pkt pkt' -> dict_eq p p' ->
  same_outcome (dispatch now pkt ty label p) (dispatch now pkt' ty label p').
Proof.
  intros H Hp. unfold dispatch. cbv zeta.
  rewrite !(getitem_dict_eq _ pkt pkt' H).
  assert (Z1 : forall names values t,
            same_outcome
              (store_zip names values label (dict_set "time_epoch" t p))
              (store_zip names values label (dict_set "time_epoch" t p'))).
  { intros names values t. rewrite !store_zip_fold.
    now apply dict_eq_zip_fold, dict_eq_set. }
  assert (Z2 : forall t,
            same_outcome (ret (dict_set "time_epoch" t p))
                         (ret (dict_set "time_epoch" t p')))
    by (intros t; now apply dict_eq_set).
  destruct (in_tuple ty ["obs_air"; "obs_sky"; "obs_st"]);
    [repeat (apply same_outcome_bind; intros ?); apply Z1|].
  destruct (String.eqb ty "rapid_wind");
    [repeat (apply same_outcome_bind; intros ?); apply Z1|].
  destruct (in_tuple ty ["evt_strike"; "evt_precip"]);
    [repeat (apply same_outcome_bind; intros ?); apply Z1|].
  destruct (String.eqb ty "device_status");
    [apply same_outcome_bind; intros ?; apply Z2|].
  destruct (String.eqb ty "hub_status");
    [apply same_outcome_bind; intros ?; apply Z2|].
  destruct (String.eqb (substring 0 2 ty) "X_"); [apply Z2|].
  exact Hp.
Qed.

Lemma parseUDPPacket_dict_eq (now : Z) (pkt pkt' : dict value) :
  dict_eq pkt pkt' ->
  same_outcome (parseUDPPacket now pkt) (parseUDPPacket now pkt').
Proof.
  intros H.
  destruct (dict_get "serial_number" pkt) as [snv|] eqn:Hsn.
  2: { rewrite !parseUDPPacket_corrupt
         by (left; now rewrite dict_in_get, <- ?(H "serial_number"), Hsn).
       intros k. reflexivity. }
  destruct (dict_get "type" pkt) as [tyv|] eqn:Hty.
  2: { rewrite !parseUDPPacket_corrupt
         by (right; now rewrite dict_in_get, <- ?(H "type"), Hty).
       intros k. reflexivity. }
  pose proof Hsn as Hsn'. rewrite (H "serial_number") in Hsn'.
  pose proof Hty as Hty'. rewrite (H "type") in Hty'.
  destruct snv as [| | | |sn| |];
    try (unfold parseUDPPacket;
         rewrite !dict_in_get, Hsn, Hty, Hsn', Hty',
           (getitem_Some _ _ _ Hsn), (getitem_Some _ _ _ Hsn');
         reflexivity).
  destruct tyv as [| | | |ty| |];
    try (unfold parseUDPPacket;
         rewrite !dict_in_get, Hsn, Hty, Hsn', Hty',
           (getitem_Some _ _ _ Hsn), (getitem_Some _ _ _ Hsn'),
           (getitem_Some _ _ _ Hty), (getitem_Some _ _ _ Hty');
         reflexivity).
  rewrite (parseUDPPacket_dispatch _ pkt sn ty Hsn Hty).
  rewrite (parseUDPPacket_dispatch _ pkt' sn ty Hsn' Hty').
  apply dispatch_dict_eq; [exact H | now apply raw_dict_eq].
Qed.

Lemma sendMyLoopPacket_dict_eq (METRICWX : value) (rec rec' : dict value)
    (sm : dict string) :
  dict_eq rec rec' ->
  sendMyLoopPacket METRICWX rec sm = sendMyLoopPacket METRICWX rec' sm.
Proof.
  intros H. rewrite !sendMyLoopPacket_fold. unfold seed.
  rewrite (H "time_epoch"). f_equal.
  apply alias_fold_ext; [reflexivity|].
  apply map_ext. intros item. apply H.
Qed.

(** The pipeline sees a message only as a mapping: two messages with the
    same keys and values, listed in whatever order, give the same Output
    Record, entry for entry, or raise the same exception. *)
Theorem key_order_is_irrelevant (METRICWX : value) (sensor_map : dict string)
    (now : Z) (pkt pkt' : dict value) :
  dict_eq pkt pkt' ->
  fst (flatten_project METRICWX sensor_map now pkt)
  = fst (flatten_project METRICWX sensor_map now pkt').
Proof.
  intros H. pose proof (parseUDPPacket_dict_eq now pkt pkt' H) as S.
  unfold flatten_project, same_outcome in *.
  destruct (parseUDPPacket now pkt) as [[e|r] l],
           (parseUDPPacket now pkt') as [[e'|r'] l']; cbn [fst bind] in *;
    try contradiction; [now subst|].
  rewrite (sendMyLoopPacket_dict_eq METRICWX r r' sensor_map S).
  rewrite sendMyLoopPacket_fold. reflexivity.
Qed.

Lemma key_order_is_irrelevant_witness :
  dict_eq
    [("serial_number", VStr "SK-00001234"); ("type", VStr "rapid_wind");
     ("ob", VList [VInt 1600000005; VInt 3; VInt 270])]
    [("ob", VList [VInt 1600000005; VInt 3; VInt 270]);
     ("type", VStr "rapid_wind"); ("serial_number", VStr "SK-00001234")] /\
  fst (flatten_project (VInt 17)
         [("windSpeed", "wind_speed.SK-00001234.rapid_wind")] 0
         [("serial_number", VStr "SK-00001234"); ("type", VStr "rapid_wind");
          ("ob", VList [VInt 1600000005; VInt 3; VInt 270])])
  = fst (flatten_project (VInt 17)
           [("windSpeed", "wind_speed.SK-00001234.rapid_wind")] 0
           [("ob", VList [VInt 1600000005; VInt 3; VInt 270]);
            ("type", VStr "rapid_wind");
            ("serial_number", VStr "SK-00001234")]).
Proof.
  assert (E : dict_eq
    [("serial_number", VStr "SK-00001234"); ("type", VStr "rapid_wind");
     ("ob", VList [VInt 1600000005; VInt 3; VInt 270])]
    [("ob", VList [VInt 1600000005; VInt 3; VInt 270]);
     ("type", VStr "rapid_wind"); ("serial_number", VStr "SK-00001234")]).
  { intros k. cbn [dict_get].
    destruct (String.eqb_spec k "serial_number") as [->|]; [reflexivity|].
    destruct (String.eqb_spec k "type") as [->|]; [reflexivity|].
    destruct (String.eqb k "ob"); reflexivity. }
  split; [exact E|].
  exact (key_order_is_irrelevant (VInt 17)
           [("windSpeed", "wind_speed.SK-00001234.rapid_wind")] 0 _ _ E).
Defined.

(** ** A string where an array is expected *)

(** A [rapid_wind] message whose [ob] is a non-empty string is not
    refused: indexing and zipping work on strings too, so [time_epoch] is
    the first character of the string and [wind_speed.<label>] the second,
    each as a one-character string. *)
Theorem string_payload_is_zipped (now : Z) (pkt : dict value) (sn : string)
    (c : ascii) (s : string) :
  dict_get "serial_number" pkt = Some (VStr sn) ->
  dict_get "type" pkt = Some (VStr "rapid_wind") ->
  dict_get "ob" pkt = Some (VStr (String c s)) ->
  exists rec,
    parseUDPPacket now pkt = (inr rec, []) /\
    dict_get "time_epoch" rec = Some (VStr (String c EmptyString)) /\
    dict_get (composite_key "wind_speed" (label_of sn "rapid_wind")) rec
    = match s with
      | String c2 _ => Some (VStr (String c2 EmptyString))
      | EmptyString => dict_get "wind_speed" pkt
      end.
Proof.
  intros Hsn Hty Hob. eexists. split.
  - rewrite (parseUDPPacket_dispatch _ pkt sn "rapid_wind" Hsn Hty).
    apply (dispatch_rapid_wind _ _ _ _ _ (VStr (String c EmptyString))
             (str_chars (String c s)) Hob); reflexivity.
  - cbn [str_chars].
    destruct (zip3_lookups pkt (label_of sn "rapid_wind")
                "wind_speed" "wind_direction" (VStr (String c EmptyString))
                (str_chars s) eq_refl) as (T & _ & S & _).
    split; [exact T|]. unfold composite_key. rewrite S. now destruct s.
Qed.

Lemma string_payload_is_zipped_witness :
  exists rec,
    parseUDPPacket 0
      (message_with "SK-00001234" "rapid_wind" "ob" (VStr "1600000005"))
    = (inr rec, []) /\
    dict_get "time_epoch" rec = Some (VStr "1") /\
    dict_get "wind_speed.SK_00001234.rapid_wind" rec = Some (VStr "6").
Proof.
  destruct (string_payload_is_zipped 0
              (message_with "SK-00001234" "rapid_wind" "ob"
                 (VStr "1600000005"))
              "SK-00001234" "1" "600000005" eq_refl eq_refl eq_refl)
    as (rec & P & T & S).
  exists rec. split; [exact P|]. split; [exact T | exact S].
Defined.
